(** * PyTrinamicTools: the microstep table calculator

    A shallow embedding of [PyTrinamicTools/tools/MicrostepCalculator.py]:
    the sampler [sineWave], for the sampling points the script passes and,
    in [AnyObject], for any object passed as sampling points; the sampling
    point generators; the main part of the script; and the encoder
    [MicroStepTable.encodeWaveform] the script hands the samples to.

    Python integers are [Z]; Python floats are IEEE binary64 numbers, taken
    from the Standard Library's [SpecFloat]; exceptions are an error monad
    that also collects what is printed. *)

From Stdlib Require Import String ZArith List Bool Lia.
From Stdlib Require Import SpecFloat.
Import ListNotations.
Open Scope Z_scope.

(** ** Exceptions and the script's effects *)

Module Py.

(** The built-in exceptions the script can raise. *)
Inductive exn : Type :=
| TypeError
| ValueError
| RuntimeError
| OverflowError.

Definition exn_eqb (a b : exn) : bool :=
  match a, b with
  | TypeError, TypeError | ValueError, ValueError
  | RuntimeError, RuntimeError | OverflowError, OverflowError => true
  | _, _ => false
  end.

(** Evaluation of an expression: a value or a raised exception. *)
Inductive result (A : Type) : Type :=
| Ok (a : A)
| Raise (e : exn).
Arguments Ok {A} a.
Arguments Raise {A} e.

Definition bind {A B} (r : result A) (k : A -> result B) : result B :=
  match r with
  | Ok a => k a
  | Raise e => Raise e
  end.

(** Execution of statements: the lines printed so far, and the outcome. *)
Definition io (A : Type) : Type := list string * result A.

Definition ret {A} (a : A) : io A := ([], Ok a).
Definition raise {A} (e : exn) : io A := ([], Raise e).
Definition print (line : string) : io unit := ([line], Ok tt).
Definition lift {A} (r : result A) : io A := ([], r).

Definition andthen {A B} (c : io A) (k : A -> io B) : io B :=
  match c with
  | (out, Ok a) => let (out', r) := k a in (out ++ out', r)
  | (out, Raise e) => (out, Raise e)
  end.

Definition stdout {A} (c : io A) : list string := fst c.
Definition outcome {A} (c : io A) : result A := snd c.

(** Dynamically typed values, as far as the script's arguments go. *)
Inductive pytype : Type := TInt | TFloat | TBool | TStr | TNone.

Inductive value : Type :=
| PyInt (z : Z)
| PyFloat (f : spec_float)
| PyBool (b : bool)
| PyStr (s : string)
| PyNone.

(** [type(v)] *)
Definition type (v : value) : pytype :=
  match v with
  | PyInt _ => TInt
  | PyFloat _ => TFloat
  | PyBool _ => TBool
  | PyStr _ => TStr
  | PyNone => TNone
  end.

Definition pytype_eqb (a b : pytype) : bool :=
  match a, b with
  | TInt, TInt | TFloat, TFloat | TBool, TBool | TStr, TStr | TNone, TNone => true
  | _, _ => false
  end.

(** A sampling position: an [int] (what [range] and the equidistant
    generators give) or a [float] (what the modulated generator gives). *)
Inductive num : Type :=
| NInt (z : Z)
| NFloat (f : spec_float).

End Py.

Export Py.

Declare Scope py_scope.
Delimit Scope py_scope with py.
Notation "x <- c ;; k" := (Py.bind c (fun x => k))
  (at level 61, c at next level, right associativity) : py_scope.
Notation "x <~ c ;; k" := (Py.andthen c (fun x => k))
  (at level 61, c at next level, right associativity) : py_scope.
Notation "c ;;; k" := (Py.andthen c (fun _ => k))
  (at level 61, right associativity) : py_scope.
Open Scope py_scope.

(** ** Python floats *)

Module Float.

Definition prec : Z := 53.
Definition emax : Z := 1024.

Definition add : spec_float -> spec_float -> spec_float := SFadd prec emax.
Definition mul : spec_float -> spec_float -> spec_float := SFmul prec emax.
Definition div : spec_float -> spec_float -> spec_float := SFdiv prec emax.

(** The float nearest to [m * 2^e], ties to even. *)
Definition of_scaled (m e : Z) : spec_float := binary_normalize prec emax m e false.

Definition is_nan (f : spec_float) : bool :=
  match f with S754_nan => true | _ => false end.
Definition is_infinity (f : spec_float) : bool :=
  match f with S754_infinity _ => true | _ => false end.
Definition is_finite (f : spec_float) : bool :=
  match f with S754_zero _ | S754_finite _ _ _ => true | _ => false end.
Definition is_nonzero (f : spec_float) : bool :=
  match f with S754_finite _ _ _ => true | _ => false end.

(** [float(z)], as the arithmetic operators convert an [int] operand:
    the nearest float, and [OverflowError] beyond the largest one. *)
Definition of_int (z : Z) : result spec_float :=
  let f := of_scaled z 0 in
  if is_infinity f then Raise OverflowError else Ok f.

(** The literals of the script. *)
Definition half : spec_float := of_scaled 1 (-1).              (* 0.5 *)
Definition two : spec_float := of_scaled 2 0.                  (* float(2) *)
Definition c256 : spec_float := of_scaled 256 0.               (* float(256) *)
Definition c1024 : spec_float := of_scaled 1024 0.             (* float(1024) *)
(** [math.pi] = 0x1.921fb54442d18p+1 *)
Definition pi : spec_float := S754_finite false 7074237752028440 (-51).

(** The integer nearest to [m * 2^e], ties to even. *)
Definition nearest_even (m : positive) (e : Z) : Z :=
  match e with
  | Z0 => Zpos m
  | Zpos p => Zpos m * 2 ^ Zpos p
  | Zneg p =>
      let d := 2 ^ Zpos p in
      let q := Zpos m / d in
      let r := Zpos m mod d in
      match (2 * r ?= d) with
      | Lt => q
      | Gt => q + 1
      | Eq => if Z.even q then q else q + 1
      end
  end.

(** [round(f)] with one argument: an [int], halves rounded to even;
    [OverflowError] on an infinity and [ValueError] on a NaN. *)
Definition round (f : spec_float) : result Z :=
  match f with
  | S754_zero _ => Ok 0
  | S754_infinity _ => Raise OverflowError
  | S754_nan => Raise ValueError
  | S754_finite s m e => Ok (cond_Zopp s (nearest_even m e))
  end.

(** The float a sampling position stands for in [i + 0.5]. *)
Definition of_num (i : num) : result spec_float :=
  match i with
  | NInt z => of_int z
  | NFloat f => Ok f
  end.

End Float.

(** ** The C library behind [math.sin] *)

(** The sine of the platform's C library, on binary64 numbers.  Its results
    are not fixed bit for bit by any standard, so the development is stated
    for every such function. *)
Class Libm : Type := { libm_sin : spec_float -> spec_float }.

(** A sine the C library returns a finite number for every finite argument. *)
Definition finite_sin (L : Libm) : Prop :=
  forall x, Float.is_finite x = true -> Float.is_finite (libm_sin x) = true.

(** ** Iteration: ranges, lists and the script's generators *)

Module Iter.

(** Where a generator function with one counting loop is suspended. *)
Inductive counter_pc : Type :=
| Start                      (* created, body not entered *)
| AtYield (value : Z)        (* suspended at [yield], local [value] *)
| Finished.

(** Where [hardcodedGenerator] is suspended: inside [yield from values],
    with the items of [values] that are still to come. *)
Inductive delegate_pc : Type :=
| DStart
| Delegating (rest : list Z)
| DFinished.

Inductive generator : Type :=
| linear (pc : counter_pc)
| hardcoded (pc : delegate_pc)
| longitual (amplitude : num) (pc : counter_pc).

(** What [for i in sampling_points] can be handed. *)
Inductive iterable : Type :=
| PyRange (start stop : Z)
| PyList (items : list num)
| PyGen (g : generator).

(** [iter(sampling_points)]: a range or a list gets a fresh iterator on
    each call, a generator is its own iterator. *)
Inductive iterator : Type :=
| RangeIter (cur stop : Z)
| ListIter (items : list num) (index : nat)
| GenIter (g : generator).

Definition iter (obj : iterable) : iterator :=
  match obj with
  | PyRange start stop => RangeIter start stop
  | PyList items => ListIter items 0
  | PyGen g => GenIter g
  end.

(** The argument object once the loop has drawn from its iterator: only a
    generator has changed. *)
Definition after (obj : iterable) (it : iterator) : iterable :=
  match obj, it with
  | PyGen _, GenIter g' => PyGen g'
  | _, _ => obj
  end.

(** A list or a range, which each [for] reads through a fresh iterator. *)
Definition sequence (obj : iterable) : Prop :=
  match obj with
  | PyGen _ => False
  | _ => True
  end.

(** The elements [range(start, stop)] holds. *)
Definition range (start stop : Z) : list Z :=
  map (fun k => start + Z.of_nat k) (List.seq 0 (Z.to_nat (stop - start))).

End Iter.

Export Iter.

(** ** The script *)

(** The parameters at the head of the script. *)
Definition MICROSTEP_AMPLITUDE : Z := 248.
Definition MICROSTEP_OFFSET : Z := -1.
Definition MODULATION_AMPLITUDE : Z := -27.
Definition UPLOAD_TABLE : bool := false.

(** [2*(i+0.5)/1024*math.pi], with [i] already a float. *)
Definition radian (fi : spec_float) : spec_float :=
  Float.mul (Float.div (Float.mul Float.two (Float.add fi Float.half)) Float.c1024)
            Float.pi.

(** The position [i] converts to a float whose angle is a finite number. *)
Definition finite_angle (i : num) : bool :=
  match Float.of_num i with
  | Ok fi => Float.is_finite (radian fi)
  | Raise _ => false
  end.

Section MicrostepCalculator.

Context {L : Libm}.

(** [math.sin]: the C library's sine, with the checks CPython wraps every
    one-argument function of [math] in: a NaN result of a number, or an
    infinite result of a finite number, is a [ValueError]. *)
Definition math_sin (x : spec_float) : result spec_float :=
  let r := libm_sin x in
  if Float.is_nan r && negb (Float.is_nan x) then Raise ValueError
  else if Float.is_infinity r && Float.is_finite x then Raise ValueError
  else Ok r.

(** Arithmetic of a float with an argument of [sineWave]: an [int] or a
    [bool] operand is converted, a [str] or [None] is a [TypeError]. *)
Definition as_float (v : value) : result spec_float :=
  match v with
  | PyInt z => Float.of_int z
  | PyFloat f => Ok f
  | PyBool b => Float.of_int (if b then 1 else 0)
  | PyStr _ | PyNone => Raise TypeError
  end.

(** The body of the loop of [sineWave]:
    [round(math.sin(2*(i+0.5)/1024*math.pi)*amplitude + offset)]. *)
Definition sample (amplitude offset : value) (i : num) : result Z :=
  fi <- Float.of_num i ;;
  s <- math_sin (radian fi) ;;
  a <- as_float amplitude ;;
  o <- as_float offset ;;
  Float.round (Float.add (Float.mul s a) o).

(** *** Generators *)

Definition linearGenerator : generator := linear Start.
Definition hardcodedGenerator : generator := hardcoded DStart.
Definition longitualWaveGenerator (amplitude : num) : generator :=
  longitual amplitude Start.

(** The list literal of [hardcodedGenerator]. *)
Definition hardcoded_values : list Z :=
  [ 0; 1; 2; 3; 4; 5; 6; 7; 8; 9; 10; 11; 12; 13; 14; 15;
    16; 17; 18; 19; 20; 21; 22; 23; 24; 25; 26; 27; 28; 29; 30; 31;
    32; 33; 34; 35; 36; 37; 38; 39; 40; 41; 42; 43; 44; 45; 46; 47;
    48; 49; 50; 51; 52; 53; 54; 55; 56; 57; 58; 59; 60; 61; 62; 63;
    64; 65; 66; 67; 68; 69; 70; 71; 72; 73; 74; 75; 76; 77; 78; 79;
    80; 81; 82; 83; 84; 85; 86; 87; 88; 89; 90; 91; 92; 93; 94; 95;
    96; 97; 98; 99; 100; 101; 102; 103; 104; 105; 106; 107; 108; 109; 110; 111;
    112; 113; 114; 115; 116; 117; 118; 119; 120; 121; 122; 123; 124; 125; 126; 127;
    128; 129; 130; 131; 132; 133; 134; 135; 136; 137; 138; 139; 140; 141; 142; 143;
    144; 145; 146; 147; 148; 149; 150; 151; 152; 153; 154; 155; 156; 157; 158; 159;
    160; 161; 162; 163; 164; 165; 166; 167; 168; 169; 170; 171; 172; 173; 174; 175;
    176; 177; 178; 179; 180; 181; 182; 183; 184; 185; 186; 187; 188; 189; 190; 191;
    192; 193; 194; 195; 196; 197; 198; 199; 200; 201; 202; 203; 204; 205; 206; 207;
    208; 209; 210; 211; 212; 213; 214; 215; 216; 217; 218; 219; 220; 221; 222; 223;
    224; 225; 226; 227; 228; 229; 230; 231; 232; 233; 234; 235; 236; 237; 238; 239;
    240; 241; 242; 243; 244; 245; 246; 247; 248; 249; 250; 251; 252; 253; 254; 255 ].

(** [while value < 256: yield value; value += 1], entered with [value]. *)
Definition linear_loop (value : Z) : result (option num) * generator :=
  if value <? 256 then (Ok (Some (NInt value)), linear (AtYield value))
  else (Ok None, linear Finished).

(** [yield from values], with [rest] still to come. *)
Definition hardcoded_loop (rest : list Z) : result (option num) * generator :=
  match rest with
  | v :: rest' => (Ok (Some (NInt v)), hardcoded (Delegating rest'))
  | [] => (Ok None, hardcoded DFinished)
  end.

(** [value + amplitude*math.sin(2*(value/256)*math.pi)]; the quotient of
    the two integers is exact as long as [value] is below 2^53. *)
Definition longitual_point (amplitude : num) (value : Z) : result spec_float :=
  fv <- Float.of_int value ;;
  let x := Float.mul (Float.mul Float.two (Float.div fv Float.c256)) Float.pi in
  s <- math_sin x ;;
  a <- Float.of_num amplitude ;;
  Ok (Float.add fv (Float.mul a s)).

Definition longitual_loop (amplitude : num) (value : Z)
  : result (option num) * generator :=
  if value <? 256 then
    match longitual_point amplitude value with
    | Ok p => (Ok (Some (NFloat p)), longitual amplitude (AtYield value))
    | Raise e => (Raise e, longitual amplitude Finished)
    end
  else (Ok None, longitual amplitude Finished).

(** [next(g)]: run the body up to the next [yield]; [None] stands for
    [StopIteration]. *)
Definition resume (g : generator) : result (option num) * generator :=
  match g with
  | linear Start => linear_loop 0
  | linear (AtYield value) => linear_loop (value + 1)
  | linear Finished => (Ok None, g)
  | hardcoded DStart => hardcoded_loop hardcoded_values
  | hardcoded (Delegating rest) => hardcoded_loop rest
  | hardcoded DFinished => (Ok None, g)
  | longitual amplitude Start => longitual_loop amplitude 0
  | longitual amplitude (AtYield value) => longitual_loop amplitude (value + 1)
  | longitual _ Finished => (Ok None, g)
  end.

(** [next(it)] *)
Definition next (it : iterator) : result (option num) * iterator :=
  match it with
  | RangeIter cur stop =>
      if cur <? stop then (Ok (Some (NInt cur)), RangeIter (cur + 1) stop)
      else (Ok None, it)
  | ListIter items index =>
      match nth_error items index with
      | Some i => (Ok (Some i), ListIter items (S index))
      | None => (Ok None, it)
      end
  | GenIter g => let (r, g') := resume g in (r, GenIter g')
  end.

(** An upper bound on the number of elements an iterator still gives. *)
Definition remaining (it : iterator) : nat :=
  match it with
  | RangeIter cur stop => Z.to_nat (stop - cur)
  | ListIter items index => length items - index
  | GenIter (linear Start) | GenIter (longitual _ Start) => 256
  | GenIter (linear (AtYield value))
  | GenIter (longitual _ (AtYield value)) => Z.to_nat (255 - value)
  | GenIter (linear Finished) | GenIter (longitual _ Finished) => 0
  | GenIter (hardcoded DStart) => length hardcoded_values
  | GenIter (hardcoded (Delegating rest)) => length rest
  | GenIter (hardcoded DFinished) => 0
  end.

(** [list(it)]: draw until [StopIteration], at most [fuel] times. *)
Fixpoint drain (fuel : nat) (it : iterator)
  : option (result (list num) * iterator) :=
  match fuel with
  | O => None
  | S fuel' =>
      match next it with
      | (Raise e, it') => Some (Raise e, it')
      | (Ok None, it') => Some (Ok [], it')
      | (Ok (Some i), it') =>
          match drain fuel' it' with
          | Some (Ok rest, it'') => Some (Ok (i :: rest), it'')
          | other => other
          end
      end
  end.

(** [list(obj)] *)
Definition to_list (obj : iterable) : option (result (list num) * iterable) :=
  match drain (S (remaining (iter obj))) (iter obj) with
  | Some (r, it') => Some (r, after obj it')
  | None => None
  end.

(** *** sineWave *)

(** [for i in sampling_points: values += [round(...)]], at most [fuel]
    turns of the loop. *)
Fixpoint for_each (fuel : nat) (amplitude offset : value) (it : iterator)
  (values : list Z) : option (result (list Z) * iterator) :=
  match fuel with
  | O => None
  | S fuel' =>
      match next it with
      | (Raise e, it') => Some (Raise e, it')
      | (Ok None, it') => Some (Ok values, it')
      | (Ok (Some i), it') =>
          match sample amplitude offset i with
          | Raise e => Some (Raise e, it')
          | Ok v => for_each fuel' amplitude offset it' (values ++ [v])
          end
      end
  end.

(** [max(values)]: a [ValueError] on an empty list. *)
Definition py_max (values : list Z) : result Z :=
  match values with
  | [] => Raise ValueError
  | v :: rest => Ok (fold_left Z.max rest v)
  end.

Definition warning : string :=
  "Warning: The amplitude is exceeding 247. This may result in an overflow when combined with SpreadCycle".

(** The statements of [sineWave] after the loop. *)
Definition check_values (values : list Z) : io (list Z) :=
  m <~ lift (py_max values) ;;
  (if m >=? 256 then raise ValueError else ret tt) ;;;
  m' <~ lift (py_max values) ;;
  (if m' >? 247 then print warning else ret tt) ;;;
  (if negb (Z.of_nat (length values) =? 256) then raise RuntimeError else ret tt) ;;;
  ret values.

(** [type(amplitude) == type(offset) == int] *)
Definition both_int (amplitude offset : value) : bool :=
  pytype_eqb (type amplitude) (type offset) && pytype_eqb (type offset) TInt.

(** [sineWave(amplitude, offset, sampling_points)]: what is printed, what
    is returned or raised, and the argument object afterwards.  [None]
    only if the loop were cut short by its bound. *)
Definition sineWave (amplitude offset : value) (sampling_points : iterable)
  : option (io (list Z) * iterable) :=
  if negb (both_int amplitude offset) then Some (raise TypeError, sampling_points)
  else
    let it := iter sampling_points in
    match for_each (S (remaining it)) amplitude offset it [] with
    | None => None
    | Some (r, it') =>
        Some (values <~ lift r ;; check_values values, after sampling_points it')
    end.

(** The default argument [sampling_points=range(0, 256)]. *)
Definition default_sampling_points : iterable := PyRange 0 256.

(** *** The sampler as a function of the points drawn *)

(** The loop of [sineWave] over the points its iterator gives. *)
Fixpoint sample_all (amplitude offset : value) (points : list num)
  (values : list Z) : result (list Z) :=
  match points with
  | [] => Ok values
  | i :: rest =>
      match sample amplitude offset i with
      | Raise e => Raise e
      | Ok v => sample_all amplitude offset rest (values ++ [v])
      end
  end.

(** What [sineWave] prints and returns when its loop draws [points]. *)
Definition sineWave_of (amplitude offset : value) (points : list num)
  : io (list Z) :=
  if negb (both_int amplitude offset) then raise TypeError
  else values <~ lift (sample_all amplitude offset points []) ;; check_values values.

(** The checks of [sineWave] without the one on the ceiling of 247. *)
Definition hard_checks (values : list Z) : io (list Z) :=
  m <~ lift (py_max values) ;;
  (if m >=? 256 then raise ValueError else ret tt) ;;;
  (if negb (Z.of_nat (length values) =? 256) then raise RuntimeError else ret tt) ;;;
  ret values.

End MicrostepCalculator.

(** A stand-in for the C library in examples: the first term of the sine
    series. *)
Definition small_angle : Libm := {| libm_sin := fun x => x |}.

(** ** Sampling points of any kind *)

(** Python does not restrict what a caller passes as [sampling_points], nor
    what a list passed there holds.  [iterable] has the arguments the script
    itself passes; [argument] adds the others, for which the loop of
    [sineWave] can raise on its own: [for] on an object that is not
    iterable, and [i + 0.5] on a position that is no number. *)

Module AnyObject.

Inductive argument : Type :=
| Iterable (obj : iterable)      (* a range, a list of numbers, a generator *)
| Objects (items : list value)   (* a list of any objects *)
| Scalar (v : value).            (* an int, a float, a bool, a str or None *)

(** An object the arithmetic with a float accepts. *)
Definition is_number (v : value) : bool :=
  match v with
  | PyInt _ | PyFloat _ | PyBool _ => true
  | PyStr _ | PyNone => false
  end.

(** The object a sampling position of [iterable] is. *)
Definition value_of (i : num) : value :=
  match i with
  | NInt z => PyInt z
  | NFloat f => PyFloat f
  end.

(** What iterating a [str] gives: its characters, each a [str] of length
    one. *)
Definition characters (s : string) : list value :=
  map (fun c => PyStr (String c EmptyString)) (list_ascii_of_string s).

(** [for i in v] with [v] no list: a [str] gives its characters, a number
    or [None] is not iterable, which is a [TypeError]. *)
Definition elements (v : value) : result (list value) :=
  match v with
  | PyStr s => Ok (characters s)
  | PyInt _ | PyFloat _ | PyBool _ | PyNone => Raise TypeError
  end.

(** The objects the loop runs over, for an argument that is not one of
    [iterable]. *)
Definition listed (arg : argument) : option (result (list value)) :=
  match arg with
  | Iterable _ => None
  | Objects items => Some (Ok items)
  | Scalar v => Some (elements v)
  end.

Section Sampler.

Context {L : Libm}.

(** The body of the loop of [sineWave] for any object [i]: [i + 0.5]
    converts an [int] or a [bool] and is a [TypeError] for a [str] or
    [None]. *)
Definition sample (amplitude offset i : value) : result Z :=
  fi <- as_float i ;;
  s <- math_sin (radian fi) ;;
  a <- as_float amplitude ;;
  o <- as_float offset ;;
  Float.round (Float.add (Float.mul s a) o).

(** The loop of [sineWave] over the objects of a list. *)
Fixpoint sample_all (amplitude offset : value) (items : list value)
  (values : list Z) : result (list Z) :=
  match items with
  | [] => Ok values
  | i :: rest =>
      match sample amplitude offset i with
      | Raise e => Raise e
      | Ok v => sample_all amplitude offset rest (values ++ [v])
      end
  end.

(** [sineWave] from its first line on, with [items] what [for] finds to
    run over, or the exception it raises. *)
Definition sineWave_over (amplitude offset : value)
  (items : result (list value)) : io (list Z) :=
  if negb (both_int amplitude offset) then raise TypeError
  else
    values <~ lift (items <- items ;; sample_all amplitude offset items []) ;;
    check_values values.

(** [sineWave(amplitude, offset, sampling_points)] for any object as
    [sampling_points]; a list or a [str] is the same object afterwards. *)
Definition sineWave (amplitude offset : value) (sampling_points : argument)
  : option (io (list Z) * argument) :=
  match sampling_points with
  | Iterable obj =>
      match sineWave amplitude offset obj with
      | Some (r, obj') => Some (r, Iterable obj')
      | None => None
      end
  | Objects items => Some (sineWave_over amplitude offset (Ok items), sampling_points)
  | Scalar v => Some (sineWave_over amplitude offset (elements v), sampling_points)
  end.

End Sampler.

End AnyObject.

(** ** The encoder *)

(** The script imports [MicroStepTable] from
    [PyTrinamicTools/helpers/Microsteps.py] and calls its [encodeWaveform];
    of the table it reads [_reg_MSLUT], [_reg_MSLUTSEL] and
    [_reg_MSLUTSTART].  The helper itself is not part of the sources at
    hand, so this module follows its description. *)

Module MicroStepTable.

(** Modelled from the spec: the error kinds of the encoder. *)
Inductive error : Type :=
| ShapeError
| EncodingError (reason : string)
| InternalConsistencyError.

(** Modelled from the spec: the transition set, with the two base delta
    values and the three transition indices. *)
Record TransitionSet : Type := {
  b_low : Z;
  b_high : Z;
  W0 : Z;
  W1 : Z;
  W2 : Z
}.

(** Modelled from the spec: the start word, with the first sample and the
    signed start correction. *)
Record StartWord : Type := {
  start_value : Z;
  start_correction : Z
}.

(** Modelled from the spec: the register set, under the names the script
    reads it by: the eight table words it writes to [MSLUT0] .. [MSLUT7],
    the control word [MSLUTSEL] and the start word [MSLUTSTART].  The
    control and start words are kept as their fields; where each field sits
    in its word is the register map's. *)
Record RegisterSet : Type := {
  _reg_MSLUT : list Z;
  _reg_MSLUTSEL : TransitionSet;
  _reg_MSLUTSTART : StartWord
}.

(** What [encodeWaveform] gives: a table, or an error raised. *)
Inductive encoded : Type :=
| Table (regs : RegisterSet)
| Failed (e : error).

(** Modelled from the spec: step 1, exactly 256 samples, each in [0,255]. *)
Definition in_range (v : Z) : bool := (0 <=? v) && (v <=? 255).

Definition validate_shape (samples : list Z) : bool :=
  (length samples =? 256)%nat && forallb in_range samples.

(** Modelled from the spec: step 2,
    [delta[i] = samples[i+1] - samples[i]] for [i] in [0,254], each of which
    has to be one of 0, 1, 2, 3. *)
Fixpoint deltas (samples : list Z) : list Z :=
  match samples with
  | a :: (b :: _) as rest => (b - a) :: deltas rest
  | _ => []
  end.

Definition representable (d : Z) : bool := (0 <=? d) && (d <=? 3).

(** Modelled from the spec: step 4, 32 bits into one word, least
    significant bit first, and 256 bits into eight words. *)
Fixpoint pack_word (bits : list bool) : Z :=
  match bits with
  | [] => 0
  | b :: rest => Z.lor (Z.b2z b) (Z.shiftl (pack_word rest) 1)
  end.

Fixpoint pack_words (count : nat) (bits : list bool) : list Z :=
  match count with
  | O => []
  | S count' => pack_word (firstn 32 bits) :: pack_words count' (skipn 32 bits)
  end.

(** Bit [i] of the table. *)
Definition bit_at (words : list Z) (i : nat) : bool :=
  Z.testbit (nth (i / 32) words 0) (Z.of_nat (i mod 32)).

(** Modelled from the spec: step 7, the samples again, from the start value
    and the deltas. *)
Fixpoint rebuild (start : Z) (ds : list Z) : list Z :=
  match ds with
  | [] => [start]
  | d :: rest => start :: rebuild (start + d) rest
  end.

Definition samples_eqb (a b : list Z) : bool :=
  (length a =? length b)%nat && forallb (fun p => fst p =? snd p) (combine a b).

Definition non_monotone : string := "non-monotone or step too large".
Definition two_magnitudes : string :=
  "waveform not representable in two delta magnitudes".

Section Encoder.

(** What the table format decides and its description leaves open: the
    scan that finds the bases and the transition indices or gives up
    (step 3), the two candidate deltas, lower and upper, of the zone a
    position lies in, and the start correction (step 6). *)
Variable scan : list Z -> option TransitionSet.
Variable candidates : TransitionSet -> nat -> Z * Z.
Variable correction : list Z -> Z.

(** Modelled from the spec: step 4, one bit per transition, set where the
    delta is the upper candidate of its zone, and the trailing bit. *)
Fixpoint table_bits (ts : TransitionSet) (i : nat) (ds : list Z) : list bool :=
  match ds with
  | [] => [false]
  | d :: rest => (d =? snd (candidates ts i)) :: table_bits ts (S i) rest
  end.

(** Modelled from the spec: steps 4 to 6, the table words, the control
    word and the start word. *)
Definition assemble (samples : list Z) (ts : TransitionSet) : RegisterSet :=
  {| _reg_MSLUT := pack_words 8 (table_bits ts 0 (deltas samples));
     _reg_MSLUTSEL := ts;
     _reg_MSLUTSTART := {| start_value := hd 0 samples;
                           start_correction := correction samples |} |}.

(** Modelled from the spec: the delta the packed bit and the zone give for
    position [i], and the reconstruction of step 7 from them. *)
Definition implied_delta (regs : RegisterSet) (i : nat) : Z :=
  let (lower, upper) := candidates (_reg_MSLUTSEL regs) i in
  if bit_at (_reg_MSLUT regs) i then upper else lower.

Definition reconstruct (regs : RegisterSet) : list Z :=
  rebuild (start_value (_reg_MSLUTSTART regs))
          (map (implied_delta regs) (List.seq 0 255)).

(** Every delta is one of the two candidates of its zone. *)
Definition covered (ts : TransitionSet) (ds : list Z) : Prop :=
  forall i, (i < length ds)%nat ->
    nth i ds 0 = fst (candidates ts i) \/ nth i ds 0 = snd (candidates ts i).

(** Modelled from the spec: [MicroStepTable.encodeWaveform], of
    [PyTrinamicTools/helpers/Microsteps.py], which the script imports and
    calls; steps 1 to 7 of the encoder's contract. *)
Definition encodeWaveform (samples : list Z) : encoded :=
  if negb (validate_shape samples) then Failed ShapeError
  else if negb (forallb representable (deltas samples))
  then Failed (EncodingError non_monotone)
  else
    match scan (deltas samples) with
    | None => Failed (EncodingError two_magnitudes)
    | Some ts =>
        let regs := assemble samples ts in
        if samples_eqb (reconstruct regs) samples then Table regs
        else Failed InternalConsistencyError
    end.

End Encoder.

(** *** One format: two delta magnitudes, at most three changes *)

(** Modelled from the spec: step 3 to the letter.  Every delta is [b_low]
    or [b_high = b_low + 1]; the transition indices are the positions at
    which the delta changes, of which there may be three; anything else is
    given up. *)

(** The positions at which the delta differs from the one before. *)
Fixpoint changes (i : nat) (prev : Z) (ds : list Z) : list Z :=
  match ds with
  | [] => []
  | d :: rest =>
      if d =? prev then changes (S i) d rest
      else Z.of_nat i :: changes (S i) d rest
  end.

Definition scan_two (ds : list Z) : option TransitionSet :=
  match ds with
  | [] => None
  | d :: rest =>
      let low := fold_left Z.min rest d in
      if forallb (fun x => (x =? low) || (x =? low + 1)) ds then
        match changes 1 d rest with
        | [] => Some {| b_low := low; b_high := low + 1; W0 := 255; W1 := 255; W2 := 255 |}
        | [x] => Some {| b_low := low; b_high := low + 1; W0 := x; W1 := 255; W2 := 255 |}
        | [x; y] => Some {| b_low := low; b_high := low + 1; W0 := x; W1 := y; W2 := 255 |}
        | [x; y; z] => Some {| b_low := low; b_high := low + 1; W0 := x; W1 := y; W2 := z |}
        | _ => None
        end
      else None
  end.

Definition candidates_two (ts : TransitionSet) (_ : nat) : Z * Z :=
  (b_low ts, b_high ts).

Definition no_correction (_ : list Z) : Z := 0.

(** A format whose zones all have the candidates 0 and 0. *)
Definition candidates_flat (_ : TransitionSet) (_ : nat) : Z * Z := (0, 0).

(** *** Another format: the zone of the steeper slope first *)

(** A format with two zones, for a waveform whose slope falls.  Up to the
    first delta that is [b_low], the candidates are [b_high] and
    [b_high + 1]; from that position, which [W0] holds, they are [b_low] and
    [b_high]. *)

(** The position of the first delta that is [low], counted from [i]. *)
Fixpoint first_at (low : Z) (i : nat) (ds : list Z) : nat :=
  match ds with
  | [] => i
  | d :: rest => if d =? low then i else first_at low (S i) rest
  end.

Definition candidates_falling (ts : TransitionSet) (i : nat) : Z * Z :=
  if Z.of_nat i <? W0 ts then (b_high ts, b_high ts + 1)
  else (b_low ts, b_high ts).

(** Every delta, from position [i] on, is a candidate of its zone. *)
Fixpoint covers (ts : TransitionSet) (i : nat) (ds : list Z) : bool :=
  match ds with
  | [] => true
  | d :: rest =>
      ((d =? fst (candidates_falling ts i)) || (d =? snd (candidates_falling ts i)))
      && covers ts (S i) rest
  end.

Definition scan_falling (ds : list Z) : option TransitionSet :=
  match ds with
  | [] => None
  | d :: rest =>
      let low := fold_left Z.min rest d in
      let ts := {| b_low := low; b_high := low + 1;
                   W0 := Z.of_nat (first_at low 0 ds); W1 := 255; W2 := 255 |} in
      if covers ts 0 ds then Some ts else None
  end.

(** *** Waveforms used as examples *)

(** A ramp of slope one up to 100, level from there on. *)
Definition ramp : list Z := map (fun i => Z.min i 100) (range 0 256).

(** One step of four, level from there on. *)
Definition step_of_four : list Z := 0 :: repeat 4 255.

End MicroStepTable.

(** ** The sine wave of the script's parameters *)

(** A sine to compare the C library's with: the series
    x - x^3/3! + x^5/5! - ..., summed in integers scaled by 2^200, and rounded
    to the nearest float.  It is meant for the angles of the sampling
    positions 0..255, which lie between 0 and pi/2. *)

Module Reference.

Definition bits : Z := 200.

(** [x * 2^200]; an integer for the angles meant. *)
Definition scaled (x : spec_float) : option Z :=
  match x with
  | S754_zero _ => Some 0
  | S754_finite s m e => Some (cond_Zopp s (Z.shiftl (Zpos m) (e + bits)))
  | S754_infinity _ | S754_nan => None
  end.

(** The sum of [terms] terms of the series from [term] on, which is the one
    of the power [k]; [square] is the scaled square of the angle. *)
Fixpoint series (terms : nat) (k : Z) (term square : Z) : Z :=
  match terms with
  | O => 0
  | S terms' =>
      term + series terms' (k + 2)
               (- (Z.shiftr (term * square) bits) / ((k + 1) * (k + 2))) square
  end.

Definition sin (x : spec_float) : spec_float :=
  match scaled x with
  | Some X => Float.of_scaled (series 40 1 X (Z.shiftr (X * X) bits)) (- bits)
  | None => S754_nan
  end.

End Reference.

Definition reference : Libm := {| libm_sin := Reference.sin |}.

(** The angle [2*(i+0.5)/1024*math.pi] of the sampling position [i]. *)
Definition angle (i : Z) : spec_float := radian (Float.of_scaled i 0).

(** The floats at most two units in the last place away from [r]. *)
Definition neighbours (r : spec_float) : list spec_float :=
  let pred := SFpred Float.prec Float.emax in
  let succ := SFsucc Float.prec Float.emax in
  [pred (pred r); pred r; r; succ r; succ (succ r)].

(** A C library whose sine is, at the angles of the positions 0..255, at
    most two units in the last place away from the reference. *)
Definition accurate_sin (L : Libm) : Prop :=
  forall i, In i (range 0 256) ->
    In (libm_sin (angle i)) (neighbours (Reference.sin (angle i))).

(** A C library whose sine is the number [s] everywhere. *)
Definition constant_sin (s : spec_float) : Libm := {| libm_sin := fun _ => s |}.

(** Modelled from the spec: the waveform of the script's parameters,
    [round(sin(2*pi*(i+0.5)/1024)*248 - 1)] for [i] = 0..255. *)
Definition sine_table : list Z :=
  [ 0; 1; 3; 4; 6; 7; 9; 10; 12; 13; 15; 16; 18; 20; 21; 23;
    24; 26; 27; 29; 30; 32; 33; 35; 36; 38; 39; 41; 42; 44; 45; 47;
    48; 50; 51; 53; 54; 56; 57; 59; 60; 61; 63; 64; 66; 67; 69; 70;
    72; 73; 75; 76; 78; 79; 80; 82; 83; 85; 86; 88; 89; 90; 92; 93;
    95; 96; 97; 99; 100; 102; 103; 104; 106; 107; 108; 110; 111; 113; 114; 115;
    117; 118; 119; 121; 122; 123; 125; 126; 127; 128; 130; 131; 132; 134; 135; 136;
    137; 139; 140; 141; 142; 144; 145; 146; 147; 149; 150; 151; 152; 153; 155; 156;
    157; 158; 159; 160; 162; 163; 164; 165; 166; 167; 168; 169; 171; 172; 173; 174;
    175; 176; 177; 178; 179; 180; 181; 182; 183; 184; 185; 186; 187; 188; 189; 190;
    191; 192; 193; 194; 195; 196; 197; 198; 199; 200; 200; 201; 202; 203; 204; 205;
    206; 206; 207; 208; 209; 210; 211; 211; 212; 213; 214; 214; 215; 216; 217; 217;
    218; 219; 219; 220; 221; 222; 222; 223; 224; 224; 225; 225; 226; 227; 227; 228;
    228; 229; 230; 230; 231; 231; 232; 232; 233; 233; 234; 234; 235; 235; 236; 236;
    237; 237; 237; 238; 238; 239; 239; 239; 240; 240; 240; 241; 241; 241; 242; 242;
    242; 243; 243; 243; 243; 244; 244; 244; 244; 245; 245; 245; 245; 245; 246; 246;
    246; 246; 246; 246; 246; 246; 247; 247; 247; 247; 247; 247; 247; 247; 247; 247 ].

(** Position [i] samples to entry [i] of [sine_table] whichever neighbour of
    the reference the sine of its angle is. *)
Definition tolerant (i : Z) : bool :=
  forallb (fun s =>
             match @sample (constant_sin s) (PyInt MICROSTEP_AMPLITUDE)
                     (PyInt MICROSTEP_OFFSET) (NInt i) with
             | Ok v => v =? nth (Z.to_nat i) sine_table 0
             | Raise _ => false
             end)
          (neighbours (Reference.sin (angle i))).

(** ** Sampling points as floats *)

(** The float of the integer position [v]. *)
Definition float_point (v : Z) : num := NFloat (Float.of_scaled v 0).

(** At the counter value [v] the modulated generator computes with finite
    numbers: [v] converts to a float that is [+0.0] or not zero, and the
    angle [2*(v/256)*math.pi] is finite. *)
Definition quiet (v : Z) : bool :=
  match Float.of_int v with
  | Ok fv =>
      Float.is_finite (Float.mul (Float.mul Float.two (Float.div fv Float.c256)) Float.pi)
      && match fv with
         | S754_zero false | S754_finite _ _ _ => true
         | _ => false
         end
  | Raise _ => false
  end.

(** ** The main part of the script *)

Module Main.

Import MicroStepTable.

(** The registers of the TMC5041 the script writes. *)
Inductive register : Type :=
| MSLUT (k : nat)
| MSLUTSEL
| MSLUTSTART.

(** What is written: an entry of [table._reg_MSLUT], [table._reg_MSLUTSEL]
    or [table._reg_MSLUTSTART]. *)
Inductive regvalue : Type :=
| TableWord (w : Z)
| ControlWord (ts : TransitionSet)
| StartValue (s : StartWord).

(** The calls the script makes into matplotlib, the table and PyTrinamic, in
    the order it makes them.  They are recorded and taken to return. *)
Inductive event : Type :=
| Printed (line : string)                       (* print(...) *)
| PlotFigure                                    (* plot.figure(clear=True) *)
| PlotLine (data : list num)                    (* plot.plot(...) *)
| PlotTitle (title : string)                    (* plot.title(...) *)
| PlotShow (block : bool)                       (* plot.show(block=...) *)
| PrintRegisters (table : RegisterSet)          (* table.printRegisters() *)
| PlotQuarterWave (table : RegisterSet) (block : bool)
| PlotWaveform (table : RegisterSet) (block : bool)
| Connected                                     (* serial_tmcl_interface, TMC5041_eval *)
| Written (reg : register) (v : regvalue)       (* TMC5041.writeRegister(reg, v) *)
| Closed.                                       (* myInterface.close() *)

Inductive failure : Type :=
| Builtin (e : exn)
| IndexError.

(** How the script ends. *)
Inductive ending : Type :=
| Done                        (* the last statement has run *)
| Exit (status : Z)           (* exit(status) *)
| Uncaught (e : failure).     (* an exception no handler catches *)

Definition could_not_be_encoded : string :=
  "Specified waveform could not be encoded".

Section Script.

Context {L : Libm}.

(** What the script needs of [MicroStepTable], whose code is elsewhere:
    [encodeWaveform] as the script sees it, returning a table or raising,
    the truth value of a table in [not(table)], and [table == None]. *)
Variable encodeWaveform : list Z -> result RegisterSet.
Variable truth : RegisterSet -> bool.
Variable equals_None : RegisterSet -> bool.

(** The writes of [MSLUT0] .. [MSLUT7], lines 143 to 150: the writes made,
    and whether [table._reg_MSLUT] had an entry for each. *)
Fixpoint write_words (table : RegisterSet) (k count : nat) : list event * bool :=
  match count with
  | O => ([], true)
  | S count' =>
      match nth_error (_reg_MSLUT table) k with
      | Some w =>
          let (rest, ok) := write_words table (S k) count' in
          (Written (MSLUT k) (TableWord w) :: rest, ok)
      | None => ([], false)
      end
  end.

(** Lines 140 to 154: upload the table to the TMC5041. *)
Definition upload (table : RegisterSet) : list event * ending :=
  let (words, ok) := write_words table 0 8 in
  if ok then
    (Connected :: words
       ++ [Written MSLUTSEL (ControlWord (_reg_MSLUTSEL table));
           Written MSLUTSTART (StartValue (_reg_MSLUTSTART table));
           Closed],
     Done)
  else (Connected :: words, Uncaught IndexError).

(** Lines 120 to 125: plot the modulation curve. *)
Definition plot_modulation (sampling_points : list num) (block : bool)
  : list event :=
  [PlotFigure; PlotLine sampling_points; PlotLine (map NInt (range 0 256));
   PlotTitle "Step modulation"; PlotShow block].

(** Lines 120 to 154, with [table] the table or [None]. *)
Definition after_encoding (sampling_points : list num)
  (table : option RegisterSet) (upload_table : bool) : list event * ending :=
  match table with
  | None => (plot_modulation sampling_points true, Exit 1)
  | Some t =>
      let plotted := plot_modulation sampling_points (equals_None t) in
      if negb (truth t) then (plotted, Exit 1)
      else
        let shown :=
          plotted ++ [PrintRegisters t; PlotQuarterWave t false; PlotWaveform t true] in
        if negb upload_table then (shown, Exit 0)
        else let (written, e) := upload t in (shown ++ written, e)
  end.

(** The main part, lines 103 to 154, for given values of the parameters at
    the head of the script. *)
Definition script (microstep_amplitude microstep_offset : value)
  (modulation_amplitude : num) (upload_table : bool)
  : option (list event * ending) :=
  match to_list (PyGen (longitualWaveGenerator modulation_amplitude)) with
  | None => None
  | Some (Raise e, _) => Some ([], Uncaught (Builtin e))
  | Some (Ok sampling_points, _) =>
      match sineWave microstep_amplitude microstep_offset (PyList sampling_points) with
      | None => None
      | Some ((out, Raise e), _) => Some (map Printed out, Uncaught (Builtin e))
      | Some ((out, Ok values), _) =>
          match encodeWaveform values with
          | Ok table =>
              let (events, e) :=
                after_encoding sampling_points (Some table) upload_table in
              Some (map Printed out ++ events, e)
          | Raise ValueError =>
              let (events, e) := after_encoding sampling_points None upload_table in
              Some (map Printed out ++ Printed could_not_be_encoded :: events, e)
          | Raise e => Some (map Printed out, Uncaught (Builtin e))
          end
      end
  end.

(** The script as it stands. *)
Definition main : option (list event * ending) :=
  script (PyInt MICROSTEP_AMPLITUDE) (PyInt MICROSTEP_OFFSET)
         (NInt MODULATION_AMPLITUDE) UPLOAD_TABLE.

(** Whether an event reaches the device. *)
Definition device (ev : event) : bool :=
  match ev with
  | Connected | Written _ _ | Closed => true
  | _ => false
  end.

End Script.

(** *** A table module to run the script with *)

(** The encoder of [MicroStepTable] with the format of two magnitudes, as
    the script would see it if every failure of it were the [ValueError]
    the script catches. *)
Definition encoder_two (values : list Z) : result RegisterSet :=
  match MicroStepTable.encodeWaveform scan_two candidates_two no_correction values with
  | Table regs => Ok regs
  | Failed _ => Raise ValueError
  end.

(** A table that counts as true and is not equal to [None], as an object
    is that defines neither. *)
Definition table_is_true (_ : RegisterSet) : bool := true.
Definition table_is_None (_ : RegisterSet) : bool := false.

End Main.

(** * Properties *)

(** ** Iteration always comes to an end *)

Section IterationFacts.

Context {L : Libm}.

Lemma linear_loop_remaining value i g :
  linear_loop value = (Ok (Some i), g) ->
  value < 256 /\ i = NInt value /\ g = linear (AtYield value).
Proof.
  unfold linear_loop. destruct (value <? 256) eqn:E; intros H; inversion H.
  apply Z.ltb_lt in E. auto.
Qed.

Lemma longitual_loop_remaining amplitude value i g :
  longitual_loop amplitude value = (Ok (Some i), g) ->
  value < 256 /\ g = longitual amplitude (AtYield value).
Proof.
  unfold longitual_loop. destruct (value <? 256) eqn:E.
  - destruct (longitual_point amplitude value); intros H; inversion H.
    apply Z.ltb_lt in E. auto.
  - intros H; inversion H.
Qed.

Lemma hardcoded_loop_remaining rest i g :
  hardcoded_loop rest = (Ok (Some i), g) ->
  exists v rest', rest = v :: rest' /\ i = NInt v /\ g = hardcoded (Delegating rest').
Proof.
  destruct rest as [|v rest']; simpl; intros H; inversion H. eauto.
Qed.

(** Each element drawn brings the iterator closer to its end. *)
Lemma next_remaining it i it' :
  next it = (Ok (Some i), it') -> (remaining it' < remaining it)%nat.
Proof.
  destruct it as [cur stop|items index|g]; cbn [next].
  - destruct (cur <? stop) eqn:E; intros H; inversion H; subst.
    apply Z.ltb_lt in E. cbn [remaining]. lia.
  - destruct (nth_error items index) eqn:E; intros H; inversion H; subst.
    assert (index < length items)%nat
      by (apply nth_error_Some; congruence).
    cbn [remaining]. lia.
  - destruct (resume g) as [r g'] eqn:E. intros H; inversion H; subst.
    destruct g as [[|value|]|[|rest|]|amplitude [|value|]]; cbn [resume] in E;
      try (inversion E; fail).
    + apply linear_loop_remaining in E as (? & _ & ->). cbn [remaining]. lia.
    + apply linear_loop_remaining in E as (? & _ & ->). cbn [remaining]. lia.
    + apply hardcoded_loop_remaining in E as (v & rest' & Hv & _ & ->).
      cbn [remaining]. rewrite Hv. cbn [length]. lia.
    + apply hardcoded_loop_remaining in E as (v & rest' & -> & _ & ->).
      cbn [remaining length]. lia.
    + apply longitual_loop_remaining in E as (? & ->). cbn [remaining]. lia.
    + apply longitual_loop_remaining in E as (? & ->). cbn [remaining]. lia.
Qed.

Lemma for_each_total amplitude offset fuel :
  forall it values, (remaining it < fuel)%nat ->
    exists r it', for_each fuel amplitude offset it values = Some (r, it').
Proof.
  induction fuel as [|fuel IH]; intros it values Hlt; [lia|].
  simpl. destruct (next it) as [[[i|]|e] it'] eqn:E; eauto.
  destruct (sample amplitude offset i); eauto.
  apply IH. apply next_remaining in E. lia.
Qed.

Lemma drain_total fuel :
  forall it, (remaining it < fuel)%nat ->
    exists r it', drain fuel it = Some (r, it').
Proof.
  induction fuel as [|fuel IH]; intros it Hlt; [lia|].
  simpl. destruct (next it) as [[[i|]|e] it'] eqn:E; eauto.
  destruct (IH it') as (r & it'' & ->).
  - apply next_remaining in E. lia.
  - destruct r; eauto.
Qed.

(** The loop of [sineWave] does to the points its iterator gives what
    [sample_all] does to their list. *)
Lemma for_each_drain amplitude offset fuel :
  forall it points it1 values,
    drain fuel it = Some (Ok points, it1) ->
    exists it2,
      for_each fuel amplitude offset it values
      = Some (sample_all amplitude offset points values, it2).
Proof.
  induction fuel as [|fuel IH]; intros it points it1 values; simpl; [discriminate|].
  destruct (next it) as [[[i|]|e] it'] eqn:E.
  - destruct (drain fuel it') as [[[rest|e] it'']|] eqn:D; try discriminate.
    intros H; inversion H; subst. simpl.
    destruct (sample amplitude offset i); eauto.
  - intros H; inversion H; subst. simpl. eauto.
  - discriminate.
Qed.

Lemma after_sequence obj it : sequence obj -> after obj it = obj.
Proof. destruct obj; simpl; intros H; [reflexivity | reflexivity | destruct H]. Qed.

End IterationFacts.

(** ** The checks after the loop *)

Section Checks.

Lemma fold_max_ge rest : forall v, v <= fold_left Z.max rest v.
Proof.
  induction rest as [|x rest IH]; intros v; simpl; [lia|].
  specialize (IH (Z.max v x)). lia.
Qed.

Lemma fold_max_bound rest : forall v,
  Forall (fun x => x <= fold_left Z.max rest v) rest.
Proof.
  induction rest as [|x rest IH]; intros v; simpl; constructor.
  - pose proof (fold_max_ge rest (Z.max v x)). lia.
  - apply IH.
Qed.

Lemma fold_max_in rest : forall v,
  fold_left Z.max rest v = v \/ In (fold_left Z.max rest v) rest.
Proof.
  induction rest as [|x rest IH]; intros v; simpl; [now left|].
  destruct (IH (Z.max v x)) as [E|E].
  - rewrite E. destruct (Z.max_spec v x) as [[_ ->]|[_ ->]]; auto.
  - auto.
Qed.

(** [max(values)] is an element of the list that bounds the others. *)
Lemma py_max_spec values m :
  py_max values = Ok m -> In m values /\ Forall (fun x => x <= m) values.
Proof.
  destruct values as [|v rest]; simpl; intros H; inversion H; subst. split.
  - destruct (fold_max_in rest v) as [->|E]; auto.
  - constructor; [apply fold_max_ge | apply fold_max_bound].
Qed.

Lemma py_max_empty values e : py_max values = Raise e -> values = [] /\ e = ValueError.
Proof. destruct values; simpl; intros H; inversion H; auto. Qed.

(** [check_values], branch by branch. *)
Lemma check_values_cases values :
  match py_max values with
  | Raise _ => check_values values = ([], Raise ValueError)
  | Ok m =>
      check_values values =
      if m >=? 256 then ([], Raise ValueError)
      else (if m >? 247 then [warning] else [],
            if Z.of_nat (length values) =? 256 then Ok values
            else Raise RuntimeError)
  end.
Proof.
  unfold check_values. destruct (py_max values) as [m|e] eqn:E.
  - unfold lift, andthen, raise, ret, print.
    destruct (m >=? 256); [reflexivity|].
    destruct (m >? 247); destruct (Z.of_nat (length values) =? 256); reflexivity.
  - apply py_max_empty in E as [-> ->]. reflexivity.
Qed.

Lemma hard_checks_cases values :
  match py_max values with
  | Raise _ => hard_checks values = ([], Raise ValueError)
  | Ok m =>
      hard_checks values =
      if m >=? 256 then ([], Raise ValueError)
      else ([], if Z.of_nat (length values) =? 256 then Ok values
                else Raise RuntimeError)
  end.
Proof.
  unfold hard_checks. destruct (py_max values) as [m|e] eqn:E.
  - unfold lift, andthen, raise, ret.
    destruct (m >=? 256); [reflexivity|].
    destruct (Z.of_nat (length values) =? 256); reflexivity.
  - apply py_max_empty in E as [-> ->]. reflexivity.
Qed.

Lemma check_values_ok values :
  outcome (check_values values) = Ok values <->
  length values = 256%nat /\ Forall (fun v => v <= 255) values.
Proof.
  pose proof (check_values_cases values) as C.
  destruct (py_max values) as [m|e] eqn:E.
  - apply py_max_spec in E as [Hin Hall]. rewrite C.
    destruct (m >=? 256) eqn:G.
    + split; [discriminate|]. intros [_ H].
      rewrite Forall_forall in H. apply H in Hin. lia.
    + destruct (Z.of_nat (length values) =? 256) eqn:Len; simpl.
      * apply Z.eqb_eq in Len. split; [intros _|reflexivity]. split; [lia|].
        eapply Forall_impl; [|exact Hall]. simpl; intros; lia.
      * apply Z.eqb_neq in Len. split; [discriminate|]. intros [H _]. lia.
  - apply py_max_empty in E as [-> _]. rewrite C. simpl.
    split; [discriminate|]. intros [H _]. discriminate.
Qed.

Lemma check_values_ValueError values :
  outcome (check_values values) = Raise ValueError <->
  values = [] \/ Exists (fun v => 255 < v) values.
Proof.
  pose proof (check_values_cases values) as C.
  destruct (py_max values) as [m|e] eqn:E.
  - assert (values <> []) by (destruct values; [discriminate|congruence]).
    apply py_max_spec in E as [Hin Hall]. rewrite C.
    destruct (m >=? 256) eqn:G; simpl.
    + split; [intros _|reflexivity]. right. apply Exists_exists.
      exists m. split; [assumption|lia].
    + split.
      * destruct (Z.of_nat (length values) =? 256); discriminate.
      * intros [?|Ex]; [contradiction|]. apply Exists_exists in Ex as (v & Hv & ?).
        rewrite Forall_forall in Hall. apply Hall in Hv. lia.
  - apply py_max_empty in E as [-> _]. rewrite C. simpl. tauto.
Qed.

Lemma check_values_RuntimeError values :
  outcome (check_values values) = Raise RuntimeError <->
  values <> [] /\ Forall (fun v => v <= 255) values /\ length values <> 256%nat.
Proof.
  pose proof (check_values_cases values) as C.
  destruct (py_max values) as [m|e] eqn:E.
  - assert (values <> []) by (destruct values; [discriminate|congruence]).
    apply py_max_spec in E as [Hin Hall]. rewrite C.
    destruct (m >=? 256) eqn:G; simpl.
    + split; [discriminate|]. intros (_ & H' & _).
      rewrite Forall_forall in H'. apply H' in Hin. lia.
    + destruct (Z.of_nat (length values) =? 256) eqn:Len.
      * apply Z.eqb_eq in Len. split; [discriminate|]. intros (_ & _ & ?). lia.
      * apply Z.eqb_neq in Len. split; [intros _|reflexivity].
        repeat split; [assumption| |lia].
        eapply Forall_impl; [|exact Hall]. simpl; intros; lia.
  - apply py_max_empty in E as [-> _]. rewrite C. simpl.
    split; [discriminate|]. intros [H _]. contradiction.
Qed.

End Checks.

(** ** The sampler *)

Section Sampler.

Context {L : Libm}.

(** [sineWave] always returns or raises: the bound on its loop is never
    what ends it. *)
Lemma sineWave_total amplitude offset obj :
  exists r obj', sineWave amplitude offset obj = Some (r, obj').
Proof.
  unfold sineWave. destruct (negb (both_int amplitude offset)); [eauto|].
  destruct (for_each_total amplitude offset (S (remaining (iter obj)))
              (iter obj) [] (Nat.lt_succ_diag_r _)) as (r & it' & ->).
  eauto.
Qed.

Lemma to_list_total obj : exists r obj', to_list obj = Some (r, obj').
Proof.
  unfold to_list.
  destruct (drain_total (S (remaining (iter obj)))
              (iter obj) (Nat.lt_succ_diag_r _)) as (r & it' & ->).
  eauto.
Qed.

(** What [sineWave] prints and returns is [sineWave_of] at the points its
    argument gives; a list or a range is as it was afterwards. *)
Lemma sineWave_points amplitude offset obj points obj1 :
  to_list obj = Some (Ok points, obj1) ->
  exists obj2,
    sineWave amplitude offset obj = Some (sineWave_of amplitude offset points, obj2)
    /\ (sequence obj -> obj2 = obj).
Proof.
  unfold to_list, sineWave, sineWave_of.
  destruct (drain (S (remaining (iter obj))) (iter obj)) as [[r it1]|] eqn:D;
    [|discriminate].
  intros H; inversion H; subst.
  destruct (negb (both_int amplitude offset)); [eauto|].
  destruct (for_each_drain amplitude offset _ _ _ _ [] D) as (it2 & ->).
  exists (after obj it2). split; [reflexivity|]. apply after_sequence.
Qed.

Lemma to_list_PyList items : to_list (PyList items) = Some (Ok items, PyList items).
Proof.
  unfold to_list. cbn [iter remaining after].
  assert (G : forall fuel index,
             (length items - index < fuel)%nat ->
             exists it', drain fuel (ListIter items index)
                         = Some (Ok (skipn index items), it')).
  { induction fuel as [|fuel IH]; intros index Hlt; [lia|].
    cbn [drain next]. destruct (nth_error items index) as [i|] eqn:E.
    - assert (index < length items)%nat by (apply nth_error_Some; congruence).
      destruct (IH (S index)) as (it' & ->); [lia|].
      exists it'. f_equal. f_equal. f_equal.
      clear - E. revert index E.
      induction items as [|x items IH]; intros [|index] E; simpl in *;
        try discriminate; [congruence | auto].
    - apply nth_error_None in E. rewrite skipn_all2 by lia. eauto. }
  destruct (G (S (length items - 0)) 0%nat) as (it' & ->); [lia|].
  reflexivity.
Qed.

Lemma to_list_PyRange start stop :
  to_list (PyRange start stop)
  = Some (Ok (map NInt (range start stop)), PyRange start stop).
Proof.
  unfold to_list. cbn [iter remaining after].
  assert (G : forall fuel cur,
             (Z.to_nat (stop - cur) < fuel)%nat ->
             exists it', drain fuel (RangeIter cur stop)
                         = Some (Ok (map NInt (range cur stop)), it')).
  { induction fuel as [|fuel IH]; intros cur Hlt; [lia|].
    cbn [drain next]. unfold range. destruct (cur <? stop) eqn:E.
    - apply Z.ltb_lt in E.
      destruct (IH (cur + 1)) as (it' & ->); [lia|].
      exists it'. f_equal. f_equal. f_equal.
      replace (Z.to_nat (stop - cur)) with (S (Z.to_nat (stop - (cur + 1)))) by lia.
      cbn [List.seq map]. f_equal; [f_equal; lia|].
      unfold range. rewrite <- seq_shift, !map_map.
      apply map_ext. intros k. f_equal. lia.
    - apply Z.ltb_ge in E. replace (Z.to_nat (stop - cur)) with 0%nat by lia.
      eauto. }
  destruct (G (S (Z.to_nat (stop - start))) start) as (it' & ->); [lia|].
  reflexivity.
Qed.

(** The loop over a generator stops at a state a [resume] has left. *)
Lemma for_each_resumed amplitude offset fuel :
  forall g values r it',
    for_each fuel amplitude offset (GenIter g) values = Some (r, it') ->
    exists g0, it' = GenIter (snd (resume g0)).
Proof.
  induction fuel as [|fuel IH]; intros g values r it'; cbn [for_each next];
    [discriminate|].
  destruct (resume g) as [[[i|]|e] g1] eqn:E.
  - destruct (sample amplitude offset i); [apply IH|].
    intros H; inversion H; subst. exists g. now rewrite E.
  - intros H; inversion H; subst. exists g. now rewrite E.
  - intros H; inversion H; subst. exists g. now rewrite E.
Qed.

Lemma resume_not_Start g : snd (resume g) <> linear Start.
Proof.
  destruct g as [[|value|]|[|rest|]|a [|value|]]; cbn [resume];
    unfold linear_loop, hardcoded_loop, longitual_loop;
    repeat match goal with
           | |- context [if ?b then _ else _] => destruct b
           | |- context [match ?x with _ => _ end] => destruct x
           end; discriminate.
Qed.

(** A generator handed to [sineWave] that passes the type check is drawn
    from: it is not the fresh generator it was. *)
Lemma sineWave_draws_from_generator amplitude offset r obj' :
  both_int amplitude offset = true ->
  sineWave amplitude offset (PyGen linearGenerator) = Some (r, obj') ->
  obj' <> PyGen linearGenerator.
Proof.
  intros Hint. unfold sineWave. rewrite Hint. cbn [negb iter].
  destruct (for_each _ _ _ _ _) as [[r0 it']|] eqn:F; [|discriminate].
  intros H; inversion H; subst. clear H.
  apply for_each_resumed in F as (g0 & ->). cbn [after].
  pose proof (resume_not_Start g0). unfold linearGenerator. congruence.
Qed.

End Sampler.

(** ** Which exceptions can be raised *)

Section Exceptions.

Context {L : Libm}.

Lemma both_int_spec amplitude offset :
  both_int amplitude offset = true <-> type amplitude = TInt /\ type offset = TInt.
Proof.
  unfold both_int. destruct amplitude, offset; simpl; intuition discriminate.
Qed.

Lemma both_int_values amplitude offset :
  both_int amplitude offset = true ->
  exists a o, amplitude = PyInt a /\ offset = PyInt o.
Proof.
  unfold both_int. destruct amplitude, offset; simpl; try discriminate. eauto.
Qed.

Lemma bind_no_TypeError {A B} (r : result A) (k : A -> result B) :
  r <> Raise TypeError -> (forall a, k a <> Raise TypeError) ->
  bind r k <> Raise TypeError.
Proof. destruct r as [a|e]; simpl; intros Hr Hk; [apply Hk | congruence]. Qed.

Lemma of_int_no_TypeError z : Float.of_int z <> Raise TypeError.
Proof. unfold Float.of_int. destruct (Float.is_infinity _); discriminate. Qed.

Lemma of_num_no_TypeError i : Float.of_num i <> Raise TypeError.
Proof. destruct i; simpl; [apply of_int_no_TypeError | discriminate]. Qed.

Lemma math_sin_no_TypeError x : math_sin x <> Raise TypeError.
Proof.
  unfold math_sin.
  destruct (Float.is_nan (libm_sin x) && negb (Float.is_nan x)); [discriminate|].
  destruct (Float.is_infinity (libm_sin x) && Float.is_finite x); discriminate.
Qed.

Lemma round_no_TypeError f : Float.round f <> Raise TypeError.
Proof. destruct f; discriminate. Qed.

Lemma sample_no_TypeError amplitude offset i :
  both_int amplitude offset = true -> sample amplitude offset i <> Raise TypeError.
Proof.
  intros H. apply both_int_values in H as (a & o & -> & ->). unfold sample.
  apply bind_no_TypeError; [apply of_num_no_TypeError | intros fi].
  apply bind_no_TypeError; [apply math_sin_no_TypeError | intros s].
  apply bind_no_TypeError; [apply of_int_no_TypeError | intros fa].
  apply bind_no_TypeError; [apply of_int_no_TypeError | intros fo].
  apply round_no_TypeError.
Qed.

Lemma longitual_point_no_TypeError amplitude value :
  longitual_point amplitude value <> Raise TypeError.
Proof.
  unfold longitual_point.
  apply bind_no_TypeError; [apply of_int_no_TypeError | intros fv].
  apply bind_no_TypeError; [apply math_sin_no_TypeError | intros s].
  apply bind_no_TypeError; [apply of_num_no_TypeError | intros fa].
  discriminate.
Qed.

Lemma resume_no_TypeError g : fst (resume g) <> Raise TypeError.
Proof.
  assert (Hlin : forall v, fst (linear_loop v) <> Raise TypeError)
    by (intros v; unfold linear_loop; destruct (v <? 256); discriminate).
  assert (Hhard : forall l, fst (hardcoded_loop l) <> Raise TypeError)
    by (intros [|x l]; discriminate).
  assert (Hlong : forall a v, fst (longitual_loop a v) <> Raise TypeError).
  { intros a v. unfold longitual_loop. destruct (v <? 256); [|discriminate].
    pose proof (longitual_point_no_TypeError a v).
    destruct (longitual_point a v); simpl; [discriminate | congruence]. }
  destruct g as [[|value|]|[|rest|]|amplitude [|value|]]; cbn [resume];
    auto; discriminate.
Qed.

Lemma next_no_TypeError it : fst (next it) <> Raise TypeError.
Proof.
  destruct it as [cur stop|items index|g]; cbn [next].
  - destruct (cur <? stop); discriminate.
  - destruct (nth_error items index); discriminate.
  - pose proof (resume_no_TypeError g). destruct (resume g). assumption.
Qed.

Lemma for_each_no_TypeError amplitude offset fuel :
  both_int amplitude offset = true ->
  forall it values r it',
    for_each fuel amplitude offset it values = Some (r, it') ->
    r <> Raise TypeError.
Proof.
  intros Hint. induction fuel as [|fuel IH]; intros it values r it'; simpl;
    [discriminate|].
  pose proof (next_no_TypeError it) as Hn.
  destruct (next it) as [[[i|]|e] it1]; simpl in Hn.
  - pose proof (sample_no_TypeError amplitude offset i Hint) as Hs.
    destruct (sample amplitude offset i) as [v|e] eqn:Es; [apply IH|].
    intros H; inversion H; subst. intros T; inversion T; subst. now apply Hs.
  - intros H; inversion H; discriminate.
  - intros H; inversion H; subst. intros T; inversion T; subst. now apply Hn.
Qed.

Lemma check_values_no_TypeError values :
  outcome (check_values values) <> Raise TypeError.
Proof.
  pose proof (check_values_cases values) as C.
  destruct (py_max values) as [m|e]; rewrite C; simpl; [|discriminate].
  destruct (m >=? 256); simpl; [discriminate|].
  destruct (Z.of_nat (length values) =? 256); discriminate.
Qed.

(** The outcome of the loop followed by the checks. *)
Lemma outcome_checked (r : result (list Z)) :
  outcome (values <~ lift r ;; check_values values)
  = match r with
    | Ok values => outcome (check_values values)
    | Raise e => Raise e
    end.
Proof.
  destruct r as [values|e]; unfold lift, andthen, outcome; simpl; [|reflexivity].
  destruct (check_values values); reflexivity.
Qed.

Lemma checked_Ok (r : result (list Z)) out values :
  (v <~ lift r ;; check_values v) = (out, Ok values) ->
  r = Ok values /\ check_values values = (out, Ok values).
Proof.
  destruct r as [v|e]; unfold lift, andthen; simpl; [|discriminate].
  destruct (check_values v) as [out' r'] eqn:E. intros H; inversion H; subst.
  assert (Hv : outcome (check_values v) = Ok values) by (rewrite E; reflexivity).
  pose proof (check_values_cases v) as C.
  destruct (py_max v) as [m|e]; rewrite C in Hv; simpl in Hv; [|discriminate].
  destruct (m >=? 256); simpl in Hv; [discriminate|].
  destruct (Z.of_nat (length v) =? 256); inversion Hv; subst. auto.
Qed.

End Exceptions.

(** ** The values returned *)

Section Values.

Context {L : Libm}.

(** The values the loop collects are the samples of the points, in order. *)
Lemma sample_all_values amplitude offset points :
  forall values result,
    sample_all amplitude offset points values = Ok result ->
    exists sampled,
      result = values ++ sampled
      /\ Forall2 (fun i v => sample amplitude offset i = Ok v) points sampled.
Proof.
  induction points as [|i points IH]; intros values result; cbn [sample_all].
  - intros H; inversion H; subst. exists []. now rewrite app_nil_r.
  - destruct (sample amplitude offset i) as [v|e] eqn:E; [|discriminate].
    intros H. apply IH in H as (sampled & -> & Hall).
    exists (v :: sampled). rewrite <- app_assoc. split; [reflexivity|].
    constructor; assumption.
Qed.

Lemma Forall2_map_left {A B C} (f : A -> B) (P : B -> C -> Prop) l :
  forall l', Forall2 P (map f l) l' -> Forall2 (fun x y => P (f x) y) l l'.
Proof.
  induction l as [|x l IH]; intros l' H; inversion H; subst; constructor; auto.
Qed.

(** A list [sineWave] returns over the default sampling points holds, at
    each position [i] of 0..255, the rounded sample of [i]. *)
Lemma sineWave_default_values amplitude offset out values obj' :
  sineWave amplitude offset default_sampling_points = Some ((out, Ok values), obj') ->
  Forall2 (fun i v => sample amplitude offset (NInt i) = Ok v) (range 0 256) values.
Proof.
  unfold default_sampling_points. intros H.
  destruct (sineWave_points amplitude offset _ _ _ (to_list_PyRange 0 256))
    as (obj2 & E & _).
  assert (Hr : sineWave_of amplitude offset (map NInt (range 0 256))
               = (out, Ok values)) by congruence.
  clear H E. unfold sineWave_of in Hr.
  destruct (negb (both_int amplitude offset)); [discriminate|].
  apply checked_Ok in Hr as [S _].
  apply sample_all_values in S as (sampled & -> & Hall).
  exact (Forall2_map_left NInt _ _ _ Hall).
Qed.

End Values.

(** ** A sine wave of amplitude zero *)

Section Flat.

Context {L : Libm}.
Hypothesis sin_finite : finite_sin L.

(** With amplitude 0 every sample is the offset, whatever the sine is. *)
Lemma sample_flat z fz i :
  finite_angle i = true ->
  Float.of_int z = Ok fz ->
  Float.is_nonzero fz = true ->
  Float.round fz = Ok z ->
  sample (PyInt 0) (PyInt z) i = Ok z.
Proof.
  unfold finite_angle, sample. intros Hi Hz Hfz Hr.
  destruct (Float.of_num i) as [fi|]; [|discriminate]. cbn [bind].
  unfold math_sin. specialize (sin_finite (radian fi) Hi).
  destruct (libm_sin (radian fi)) as [s|s| |s m e]; try discriminate;
    cbn [Float.is_nan Float.is_infinity andb bind as_float];
    rewrite Hz; cbn [bind];
    destruct fz as [sz|sz| |sz mz ez]; try discriminate; exact Hr.
Qed.

Lemma sample_all_flat z fz :
  Float.of_int z = Ok fz ->
  Float.is_nonzero fz = true ->
  Float.round fz = Ok z ->
  forall points values,
    forallb finite_angle points = true ->
    sample_all (PyInt 0) (PyInt z) points values
    = Ok (values ++ repeat z (length points)).
Proof.
  intros Hz Hfz Hr. induction points as [|i points IH]; intros values Hall.
  - simpl. now rewrite app_nil_r.
  - simpl in Hall. apply andb_true_iff in Hall as [Hi Hall].
    cbn [sample_all]. rewrite (sample_flat z fz i Hi Hz Hfz Hr), IH by assumption.
    rewrite <- app_assoc. reflexivity.
Qed.

(** [sineWave(0, z)] over the default sampling points. *)
Lemma sineWave_flat z fz :
  Float.of_int z = Ok fz ->
  Float.is_nonzero fz = true ->
  Float.round fz = Ok z ->
  sineWave (PyInt 0) (PyInt z) default_sampling_points
  = Some (check_values (repeat z 256), default_sampling_points).
Proof.
  intros Hz Hfz Hr. unfold default_sampling_points.
  destruct (sineWave_points (PyInt 0) (PyInt z) _ _ _ (to_list_PyRange 0 256))
    as (obj2 & -> & Hobj).
  rewrite (Hobj I). unfold sineWave_of. cbn [both_int type pytype_eqb andb negb].
  rewrite (sample_all_flat z fz Hz Hfz Hr) by (vm_compute; reflexivity).
  unfold lift, andthen. cbn [app]. rewrite length_map.
  change (length (range 0 256)) with 256%nat.
  destruct (check_values (repeat z 256)). reflexivity.
Qed.

End Flat.

(** ** What a returned list says about the call *)

Section Returned.

Context {L : Libm}.

(** A loop that ends with a list has drawn every point of its iterator and
    sampled each of them. *)
Lemma for_each_points amplitude offset fuel :
  forall it values result it',
    for_each fuel amplitude offset it values = Some (Ok result, it') ->
    exists points,
      drain fuel it = Some (Ok points, it')
      /\ sample_all amplitude offset points values = Ok result.
Proof.
  induction fuel as [|fuel IH]; intros it values result it';
    cbn [for_each drain]; [discriminate|].
  destruct (next it) as [[[i|]|e] it1] eqn:E.
  - destruct (sample amplitude offset i) as [v|e] eqn:Es; [|discriminate].
    intros H. apply IH in H as (points & -> & Hs).
    exists (i :: points). split; [reflexivity|].
    cbn [sample_all]. now rewrite Es.
  - intros H; inversion H; subst. exists []. split; reflexivity.
  - discriminate.
Qed.

(** An iterator that has stopped stays where it is and stops again. *)
Lemma resume_stopped g g' :
  resume g = (Ok None, g') -> resume g' = (Ok None, g').
Proof.
  destruct g as [[|value|]|[|rest|]|a [|value|]]; cbn [resume];
    unfold linear_loop, hardcoded_loop, longitual_loop;
    repeat match goal with
           | |- context [if ?b then _ else _] => destruct b
           | |- context [match ?x with _ => _ end] => destruct x
           end;
    intros H; inversion H; subst; reflexivity.
Qed.

Lemma next_stopped it it' :
  next it = (Ok None, it') -> next it' = (Ok None, it').
Proof.
  destruct it as [cur stop|items index|g]; cbn [next].
  - destruct (cur <? stop) eqn:E; intros H; inversion H; subst.
    cbn [next]. now rewrite E.
  - destruct (nth_error items index) eqn:E; intros H; inversion H; subst.
    cbn [next]. now rewrite E.
  - destruct (resume g) as [r g1] eqn:E. intros H; inversion H; subst.
    cbn [next]. now rewrite (resume_stopped g g1 E).
Qed.

Lemma for_each_stopped amplitude offset fuel :
  forall it values result it',
    for_each fuel amplitude offset it values = Some (Ok result, it') ->
    next it' = (Ok None, it').
Proof.
  induction fuel as [|fuel IH]; intros it values result it';
    cbn [for_each]; [discriminate|].
  destruct (next it) as [[[i|]|e] it1] eqn:E.
  - destruct (sample amplitude offset i); [apply IH | discriminate].
  - intros H; inversion H; subst. apply (next_stopped it it' E).
  - discriminate.
Qed.

(** What the call is made of when [sineWave] returns a list. *)
Lemma sineWave_returned amplitude offset obj out values obj' :
  sineWave amplitude offset obj = Some ((out, Ok values), obj') ->
  both_int amplitude offset = true
  /\ exists it',
       for_each (S (remaining (iter obj))) amplitude offset (iter obj) []
       = Some (Ok values, it')
       /\ obj' = after obj it'
       /\ check_values values = (out, Ok values).
Proof.
  unfold sineWave. destruct (both_int amplitude offset); cbn [negb];
    [|discriminate].
  destruct (for_each _ _ _ _ _) as [[r it']|] eqn:F; [|discriminate].
  intros H.
  assert (Hr : (v <~ lift r ;; check_values v) = (out, Ok values)) by congruence.
  assert (Hobj : after obj it' = obj') by congruence.
  apply checked_Ok in Hr as [-> Hc]. split; [reflexivity|].
  exists it'. auto.
Qed.

End Returned.

(** ** A generator as sampling points *)

Section Consumed.

Context {L : Libm}.

(** A generator that [sineWave] got a list from has been drawn from and
    has stopped: it is not in the state it was passed in, and a call with
    it finds no points. *)
Lemma sineWave_generator_consumed amplitude offset g out values obj' :
  sineWave amplitude offset (PyGen g) = Some ((out, Ok values), obj') ->
  obj' <> PyGen g
  /\ sineWave amplitude offset obj' = Some (([], Raise ValueError), obj').
Proof.
  intros H. apply sineWave_returned in H as (Hint & it' & F & -> & Hc).
  assert (Hlen : length values = 256%nat).
  { assert (Hv : outcome (check_values values) = Ok values) by now rewrite Hc.
    now apply check_values_ok in Hv as [Hlen _]. }
  cbn [iter] in F. pose proof (for_each_stopped _ _ _ _ _ _ _ F) as Hstop.
  pose proof F as F0.
  apply for_each_resumed in F as (g0 & ->).
  set (g' := snd (resume g0)) in *. cbn [after].
  cbn [next] in Hstop. destruct (resume g') as [r g1] eqn:E.
  inversion Hstop; subst. split.
  - intros Hg. assert (Hgg : g' = g) by congruence. rewrite Hgg in E.
    cbn [for_each next] in F0. rewrite E in F0.
    assert (Hnil : values = []) by congruence.
    rewrite Hnil in Hlen. discriminate.
  - unfold sineWave. rewrite Hint. cbn [negb iter for_each next]. rewrite E.
    cbn [after]. reflexivity.
Qed.

End Consumed.

(** ** Sampling points of any kind *)

Section AnyArgument.

Context {L : Libm}.

Lemma as_float_TypeError v :
  as_float v = Raise TypeError <-> AnyObject.is_number v = false.
Proof.
  destruct v as [z|f|b|s|]; simpl; split; intros H;
    try reflexivity; try discriminate;
    exfalso; apply (of_int_no_TypeError _ H).
Qed.

(** With amplitude and offset of type [int], a position raises [TypeError]
    exactly when it is no number. *)
Lemma sample_object_TypeError amplitude offset i :
  both_int amplitude offset = true ->
  AnyObject.sample amplitude offset i = Raise TypeError
  <-> AnyObject.is_number i = false.
Proof.
  intros H. apply both_int_values in H as (a & o & -> & ->).
  unfold AnyObject.sample. split.
  - intros E. apply as_float_TypeError.
    destruct (as_float i) as [fi|e] eqn:Ei; cbn [bind] in E; [|congruence].
    exfalso. revert E.
    apply bind_no_TypeError; [apply math_sin_no_TypeError | intros s].
    apply bind_no_TypeError; [apply of_int_no_TypeError | intros fa].
    apply bind_no_TypeError; [apply of_int_no_TypeError | intros fo].
    apply round_no_TypeError.
  - intros E. apply as_float_TypeError in E. rewrite E. reflexivity.
Qed.

(** The loop raises [TypeError] exactly when it reaches an object that is
    no number, the ones before it sampled. *)
Lemma sample_objects_TypeError amplitude offset items :
  both_int amplitude offset = true ->
  forall values,
    AnyObject.sample_all amplitude offset items values = Raise TypeError
    <-> exists before bad rest sampled,
          items = before ++ bad :: rest
          /\ AnyObject.is_number bad = false
          /\ AnyObject.sample_all amplitude offset before values = Ok sampled.
Proof.
  intros Hint. induction items as [|i items IH]; intros values;
    cbn [AnyObject.sample_all].
  - split; [discriminate|]. intros (before & bad & rest & sampled & E & _).
    destruct before; discriminate.
  - pose proof (sample_object_TypeError amplitude offset i Hint) as Hi.
    destruct (AnyObject.sample amplitude offset i) as [v|e] eqn:Es.
    + rewrite IH. split.
      * intros (before & bad & rest & sampled & -> & Hbad & Hs).
        exists (i :: before), bad, rest, sampled. split; [reflexivity|].
        split; [assumption|]. cbn [AnyObject.sample_all]. now rewrite Es.
      * intros (before & bad & rest & sampled & E & Hbad & Hs).
        destruct before as [|j before]; cbn [app] in E; inversion E; subst.
        -- apply Hi in Hbad. discriminate.
        -- cbn [AnyObject.sample_all] in Hs. rewrite Es in Hs.
           exists before, bad, rest, sampled. auto.
    + split.
      * intros E. assert (e = TypeError) by congruence. subst e.
        exists [], i, items, values. split; [reflexivity|].
        split; [now apply Hi | reflexivity].
      * intros (before & bad & rest & sampled & E & Hbad & Hs).
        destruct before as [|j before]; cbn [app] in E; inversion E; subst.
        -- apply Hi in Hbad. congruence.
        -- cbn [AnyObject.sample_all] in Hs. rewrite Es in Hs. discriminate.
Qed.

(** On numbers the loop is the one over the positions of [iterable]. *)
Lemma sample_objects_numbers amplitude offset points :
  forall values,
    AnyObject.sample_all amplitude offset (map AnyObject.value_of points) values
    = sample_all amplitude offset points values.
Proof.
  induction points as [|i points IH]; intros values; [reflexivity|].
  cbn [map AnyObject.sample_all sample_all].
  replace (AnyObject.sample amplitude offset (AnyObject.value_of i))
    with (sample amplitude offset i) by (destruct i; reflexivity).
  destruct (sample amplitude offset i); [apply IH | reflexivity].
Qed.

(** A list of numbers passed as any object is sampled as the list of
    positions it is. *)
Lemma sineWave_any_numbers amplitude offset points :
  AnyObject.sineWave amplitude offset (AnyObject.Objects (map AnyObject.value_of points))
  = Some (sineWave_of amplitude offset points,
          AnyObject.Objects (map AnyObject.value_of points)).
Proof.
  cbn [AnyObject.sineWave]. unfold AnyObject.sineWave_over, sineWave_of.
  cbn [bind]. now rewrite sample_objects_numbers.
Qed.

(** The call for any object as sampling points, with amplitude and offset
    of type [int]. *)
Lemma sineWave_any_TypeError amplitude offset arg :
  both_int amplitude offset = true ->
  exists r arg',
    AnyObject.sineWave amplitude offset arg = Some (r, arg')
    /\ (outcome r = Raise TypeError
        <-> AnyObject.listed arg = Some (Raise TypeError)
            \/ exists before bad rest sampled,
                 AnyObject.listed arg = Some (Ok (before ++ bad :: rest))
                 /\ AnyObject.is_number bad = false
                 /\ AnyObject.sample_all amplitude offset before [] = Ok sampled).
Proof.
  intros Hint.
  assert (Hover : forall items,
             outcome (AnyObject.sineWave_over amplitude offset items) = Raise TypeError
             <-> items = Raise TypeError
                 \/ exists before bad rest sampled,
                      items = Ok (before ++ bad :: rest)
                      /\ AnyObject.is_number bad = false
                      /\ AnyObject.sample_all amplitude offset before [] = Ok sampled).
  { intros items. unfold AnyObject.sineWave_over. rewrite Hint. cbn [negb].
    rewrite outcome_checked. destruct items as [items|e]; cbn [bind].
    - pose proof (sample_objects_TypeError amplitude offset items Hint []) as Hs.
      destruct (AnyObject.sample_all amplitude offset items []) as [values|e] eqn:E.
      + split.
        * intros T. destruct (check_values_no_TypeError values T).
        * intros [T|(before & bad & rest & sampled & Ei & Hbad & Hb)];
            [discriminate|].
          assert (Hx : Ok values = Raise TypeError :> result (list Z));
            [|discriminate].
          apply Hs. exists before, bad, rest, sampled.
          split; [congruence|auto].
      + split.
        * intros T. right. apply Hs in T as (before & bad & rest & sampled & -> & H1 & H2).
          exists before, bad, rest, sampled. auto.
        * intros [T|(before & bad & rest & sampled & Ei & Hbad & Hb)];
            [discriminate|].
          apply Hs. exists before, bad, rest, sampled.
          split; [congruence|auto].
    - split; [intros T; left; congruence|].
      intros [T|(before & bad & rest & sampled & Ei & _)]; [congruence|discriminate]. }
  destruct arg as [obj|items|v]; cbn [AnyObject.sineWave AnyObject.listed].
  - destruct (sineWave_total amplitude offset obj) as (r & obj' & E).
    rewrite E. exists r, (AnyObject.Iterable obj'). split; [reflexivity|].
    split.
    + intros T. exfalso. revert T.
      unfold sineWave in E. rewrite Hint in E. cbn [negb] in E.
      destruct (for_each _ _ _ _ _) as [[r0 it']|] eqn:F; [|discriminate].
      assert (Hr : r = (values <~ lift r0 ;; check_values values)) by congruence.
      rewrite Hr, outcome_checked.
      pose proof (for_each_no_TypeError amplitude offset _ Hint _ _ _ _ F).
      destruct r0; [apply check_values_no_TypeError | assumption].
    + intros [T|(before & bad & rest & sampled & T & _)]; discriminate.
  - eexists. eexists. split; [reflexivity|]. rewrite Hover. split.
    + intros [T|(before & bad & rest & sampled & Ei & H)]; [discriminate|].
      right. exists before, bad, rest, sampled. split; [now rewrite Ei|exact H].
    + intros [T|(before & bad & rest & sampled & Ei & H)]; [discriminate|].
      right. exists before, bad, rest, sampled. split; [congruence|exact H].
  - eexists. eexists. split; [reflexivity|]. rewrite Hover. split.
    + intros [T|(before & bad & rest & sampled & Ei & H)].
      * left. now rewrite T.
      * right. exists before, bad, rest, sampled. split; [now rewrite Ei|exact H].
    + intros [T|(before & bad & rest & sampled & Ei & H)].
      * left. congruence.
      * right. exists before, bad, rest, sampled. split; [congruence|exact H].
Qed.

End AnyArgument.

(** ** The sine wave of the script's parameters *)

Section SineWave.

(** The sample of an integer position needs the sine at its angle only. *)
Lemma sample_constant (L : Libm) amplitude offset i :
  @sample L amplitude offset (NInt i)
  = @sample (constant_sin (@libm_sin L (angle i))) amplitude offset (NInt i).
Proof.
  unfold sample, Float.of_num, Float.of_int, angle.
  destruct (Float.is_infinity (Float.of_scaled i 0)); reflexivity.
Qed.

Lemma tolerant_positions : forallb tolerant (range 0 256) = true.
Proof. vm_compute. reflexivity. Qed.

Context {L : Libm}.
Hypothesis sin_accurate : accurate_sin L.

Lemma accurate_sample i :
  In i (range 0 256) ->
  sample (PyInt MICROSTEP_AMPLITUDE) (PyInt MICROSTEP_OFFSET) (NInt i)
  = Ok (nth (Z.to_nat i) sine_table 0).
Proof.
  intros Hi. pose proof tolerant_positions as T.
  rewrite forallb_forall in T. specialize (T i Hi). unfold tolerant in T.
  rewrite forallb_forall in T. specialize (T _ (sin_accurate i Hi)).
  rewrite sample_constant.
  destruct (@sample (constant_sin (libm_sin (angle i))) _ _ _) as [v|e];
    [|discriminate].
  apply Z.eqb_eq in T. now rewrite T.
Qed.

Lemma accurate_sample_all positions :
  (forall i, In i positions -> In i (range 0 256)) ->
  forall values,
    sample_all (PyInt MICROSTEP_AMPLITUDE) (PyInt MICROSTEP_OFFSET)
      (map NInt positions) values
    = Ok (values ++ map (fun i => nth (Z.to_nat i) sine_table 0) positions).
Proof.
  induction positions as [|i positions IH]; intros Hin values.
  - simpl. now rewrite app_nil_r.
  - cbn [map sample_all]. rewrite accurate_sample by (apply Hin; now left).
    rewrite IH by (intros j Hj; apply Hin; now right).
    now rewrite <- app_assoc.
Qed.

(** [sineWave(248, -1)] over the points 0, 1, ..., 255. *)
Lemma sineWave_of_sine_table :
  sineWave_of (PyInt MICROSTEP_AMPLITUDE) (PyInt MICROSTEP_OFFSET)
    (map NInt (range 0 256))
  = ([], Ok sine_table).
Proof.
  unfold sineWave_of. cbn [both_int type pytype_eqb andb negb].
  rewrite accurate_sample_all by (intros i Hi; exact Hi).
  cbn [app].
  assert (Hm : map (fun i => nth (Z.to_nat i) sine_table 0) (range 0 256) = sine_table)
    by (vm_compute; reflexivity).
  rewrite Hm.
  assert (Hc : check_values sine_table = ([], Ok sine_table))
    by (vm_compute; reflexivity).
  unfold lift, andthen. rewrite Hc. reflexivity.
Qed.

(** The same for any argument that gives these points. *)
Lemma sineWave_sine_table obj obj1 :
  to_list obj = Some (Ok (map NInt (range 0 256)), obj1) ->
  sineWave (PyInt MICROSTEP_AMPLITUDE) (PyInt MICROSTEP_OFFSET) obj
  = Some (([], Ok sine_table), obj1).
Proof.
  intros T.
  destruct (sineWave_points (PyInt MICROSTEP_AMPLITUDE) (PyInt MICROSTEP_OFFSET)
              _ _ _ T) as (obj2 & E & _).
  rewrite sineWave_of_sine_table in E. rewrite E. do 2 f_equal.
  apply sineWave_returned in E as (_ & it' & F & -> & _).
  apply for_each_points in F as (points & D & _).
  unfold to_list in T. rewrite D in T. congruence.
Qed.

End SineWave.

Lemma reference_accurate : accurate_sin reference.
Proof. intros i _. right. right. left. reflexivity. Qed.

(** ** The encoder *)

Module EncoderFacts.

Import MicroStepTable.

Lemma samples_eqb_eq a : forall b, samples_eqb a b = true <-> a = b.
Proof.
  unfold samples_eqb. induction a as [|x a IH]; intros [|y b]; simpl;
    try (split; [intros H; try discriminate; reflexivity | intros H; try discriminate; reflexivity]).
  specialize (IH b). rewrite andb_true_iff in *. rewrite andb_true_iff.
  rewrite Z.eqb_eq, Nat.eqb_eq in *. split.
  - intros (Hlen & Hxy & Hrest). f_equal; [assumption|]. apply IH. auto.
  - intros H; inversion H; subst. destruct IH as [_ IH]. specialize (IH eq_refl).
    tauto.
Qed.

Lemma deltas_length samples : length (deltas samples) = (length samples - 1)%nat.
Proof.
  induction samples as [|a [|b rest] IH]; [reflexivity | reflexivity|].
  change (deltas (a :: b :: rest)) with ((b - a) :: deltas (b :: rest)).
  cbn [length] in *. lia.
Qed.

Lemma deltas_nth samples : forall i,
  (S i < length samples)%nat ->
  nth i (deltas samples) 0 = nth (S i) samples 0 - nth i samples 0.
Proof.
  induction samples as [|a [|b rest] IH]; intros i Hi; cbn [length] in Hi; try lia.
  change (deltas (a :: b :: rest)) with ((b - a) :: deltas (b :: rest)).
  destruct i as [|i]; [reflexivity|].
  cbn [nth]. rewrite IH by (cbn [length]; lia). reflexivity.
Qed.

Lemma rebuild_deltas samples :
  samples <> [] -> rebuild (hd 0 samples) (deltas samples) = samples.
Proof.
  induction samples as [|a [|b rest] IH]; intros Hne; [contradiction | reflexivity|].
  change (deltas (a :: b :: rest)) with ((b - a) :: deltas (b :: rest)).
  cbn [hd rebuild]. replace (a + (b - a)) with b by lia.
  f_equal. apply (IH ltac:(discriminate)).
Qed.

Lemma validate_shape_spec samples :
  validate_shape samples = true <->
  length samples = 256%nat /\ Forall (fun v => 0 <= v <= 255) samples.
Proof.
  unfold validate_shape, in_range.
  rewrite andb_true_iff, Nat.eqb_eq, forallb_forall, Forall_forall.
  split; intros [Hlen Hall]; (split; [assumption|]); intros v Hv;
    specialize (Hall v Hv); lia.
Qed.

Lemma b2z_high (b : bool) n : 0 < n -> Z.testbit (Z.b2z b) n = false.
Proof.
  intros Hn. destruct b; simpl; [|apply Z.testbit_0_l].
  apply Z.bits_above_log2; simpl; lia.
Qed.

(** Bit [j] of a packed word is the [j]-th bit packed. *)
Lemma pack_word_testbit bits : forall j,
  Z.testbit (pack_word bits) (Z.of_nat j) = nth j bits false.
Proof.
  induction bits as [|b rest IH]; intros j.
  - simpl. rewrite Z.testbit_0_l. destruct j; reflexivity.
  - cbn [pack_word]. rewrite Z.lor_spec. destruct j as [|j].
    + rewrite Z.b2z_bit0, Z.shiftl_spec_low by lia. now rewrite orb_false_r.
    + rewrite b2z_high, Z.shiftl_spec by lia. cbn [orb nth].
      rewrite <- IH. f_equal. lia.
Qed.

Lemma pack_words_nth count : forall bits k,
  (k < count)%nat ->
  nth k (pack_words count bits) 0 = pack_word (firstn 32 (skipn (32 * k) bits)).
Proof.
  induction count as [|count IH]; intros bits k Hk; [lia|].
  cbn [pack_words]. destruct k as [|k].
  - reflexivity.
  - cbn [nth]. rewrite IH by lia. rewrite skipn_skipn. do 3 f_equal. lia.
Qed.

Lemma bit_at_pack bits i :
  (i < 256)%nat -> bit_at (pack_words 8 bits) i = nth i bits false.
Proof.
  intros Hi. unfold bit_at.
  assert (i / 32 < 8)%nat by (apply Nat.Div0.div_lt_upper_bound; lia).
  assert (i mod 32 < 32)%nat by (apply Nat.mod_upper_bound; lia).
  rewrite pack_words_nth, pack_word_testbit by assumption.
  rewrite nth_firstn.
  destruct (i mod 32 <? 32)%nat eqn:E; [|apply Nat.ltb_ge in E; lia].
  rewrite nth_skipn. f_equal. rewrite (Nat.div_mod_eq i 32) at 3. lia.
Qed.

Lemma map_seq_nth (f : nat -> Z) l :
  (forall i, (i < length l)%nat -> f i = nth i l 0) ->
  map f (List.seq 0 (length l)) = l.
Proof.
  intros H. apply (nth_ext _ _ (f 0%nat) 0).
  - now rewrite length_map, length_seq.
  - intros i Hi. rewrite length_map, length_seq in Hi.
    rewrite map_nth, seq_nth by assumption. now apply H.
Qed.

Section WithFormat.

Variable scan : list Z -> option TransitionSet.
Variable candidates : TransitionSet -> nat -> Z * Z.
Variable correction : list Z -> Z.

(** A delta outside 0..3 fails the second step. *)
Lemma bad_delta_not_representable samples i :
  (S i < length samples)%nat ->
  (nth (S i) samples 0 - nth i samples 0 < 0
   \/ 3 < nth (S i) samples 0 - nth i samples 0) ->
  forallb representable (deltas samples) = false.
Proof.
  intros Hi Hd. rewrite <- deltas_nth in Hd by assumption.
  apply not_true_is_false. intros H. rewrite forallb_forall in H.
  assert (Hin : In (nth i (deltas samples) 0) (deltas samples))
    by (apply nth_In; rewrite deltas_length; lia).
  apply H in Hin. unfold representable in Hin. lia.
Qed.

(** What [encodeWaveform] returns as a table has passed every step. *)
Lemma encode_Table samples regs :
  encodeWaveform scan candidates correction samples = Table regs ->
  exists ts,
    validate_shape samples = true
    /\ forallb representable (deltas samples) = true
    /\ scan (deltas samples) = Some ts
    /\ regs = assemble candidates correction samples ts
    /\ reconstruct candidates regs = samples.
Proof.
  unfold encodeWaveform.
  destruct (validate_shape samples); [|discriminate].
  destruct (forallb representable (deltas samples)); [|discriminate].
  destruct (scan (deltas samples)) as [ts|]; [|discriminate]. cbn [negb].
  destruct (samples_eqb _ samples) eqn:E; [|discriminate].
  intros H; inversion H; subst. apply samples_eqb_eq in E.
  exists ts. auto.
Qed.

Lemma table_bits_nth ts ds : forall k i,
  (i < length ds)%nat ->
  nth i (table_bits candidates ts k ds) false
  = (nth i ds 0 =? snd (candidates ts (k + i))).
Proof.
  induction ds as [|d rest IH]; intros k i Hi; cbn [length] in Hi; [lia|].
  cbn [table_bits]. destruct i as [|i]; cbn [nth].
  - now rewrite Nat.add_0_r.
  - rewrite IH by lia. do 3 f_equal. lia.
Qed.

(** Zones that cover the deltas give back each delta. *)
Lemma implied_delta_assemble samples ts i :
  length samples = 256%nat ->
  covered candidates ts (deltas samples) ->
  (i < 255)%nat ->
  implied_delta candidates (assemble candidates correction samples ts) i
  = nth i (deltas samples) 0.
Proof.
  intros Hlen Hcov Hi.
  assert (Hd : (i < length (deltas samples))%nat)
    by (rewrite deltas_length; lia).
  specialize (Hcov i Hd).
  unfold implied_delta, assemble. cbn [_reg_MSLUT _reg_MSLUTSEL].
  rewrite bit_at_pack by lia. rewrite table_bits_nth by assumption.
  cbn [Nat.add]. destruct (candidates ts i) as [lower upper].
  cbn [fst snd] in *.
  destruct (nth i (deltas samples) 0 =? upper) eqn:E.
  - apply Z.eqb_eq in E. congruence.
  - apply Z.eqb_neq in E. destruct Hcov; congruence.
Qed.

Lemma reconstruct_assemble samples ts :
  length samples = 256%nat ->
  covered candidates ts (deltas samples) ->
  reconstruct candidates (assemble candidates correction samples ts) = samples.
Proof.
  intros Hlen Hcov. unfold reconstruct.
  assert (H255 : length (deltas samples) = 255%nat)
    by (rewrite deltas_length; lia).
  rewrite <- H255 at 1. rewrite map_seq_nth.
  - cbn [assemble _reg_MSLUTSTART start_value]. apply rebuild_deltas.
    intros ->. discriminate.
  - intros i Hi. apply implied_delta_assemble; [assumption..|lia].
Qed.

(** With zones that cover the deltas the last step never fails. *)
Lemma encode_complete samples ts :
  validate_shape samples = true ->
  forallb representable (deltas samples) = true ->
  scan (deltas samples) = Some ts ->
  covered candidates ts (deltas samples) ->
  encodeWaveform scan candidates correction samples
  = Table (assemble candidates correction samples ts).
Proof.
  intros Hshape Hrep Hscan Hcov. unfold encodeWaveform.
  rewrite Hshape, Hrep, Hscan. cbn [negb].
  apply validate_shape_spec in Hshape as [Hlen _].
  rewrite reconstruct_assemble by assumption.
  now rewrite (proj2 (samples_eqb_eq samples samples) eq_refl).
Qed.

End WithFormat.

(** The scan for two magnitudes only returns zones that cover the deltas. *)
Lemma scan_two_covered ds ts :
  scan_two ds = Some ts -> covered candidates_two ts ds.
Proof.
  unfold scan_two. destruct ds as [|d rest]; [discriminate|].
  set (low := fold_left Z.min rest d).
  destruct (forallb _ (d :: rest)) eqn:A; [|discriminate].
  intros Hts i Hi. rewrite forallb_forall in A.
  specialize (A (nth i (d :: rest) 0) (nth_In _ _ Hi)).
  apply orb_true_iff in A. rewrite !Z.eqb_eq in A.
  assert (b_low ts = low /\ b_high ts = low + 1) as [Hl Hh].
  { destruct (changes 1 d rest) as [|x [|y [|z [|]]]];
      inversion Hts; subst; auto. }
  unfold candidates_two. cbn [fst snd]. rewrite Hl, Hh. exact A.
Qed.

(** With the scan for two magnitudes the last step never fails. *)
Lemma scan_two_consistent correction samples :
  encodeWaveform scan_two candidates_two correction samples
  <> Failed InternalConsistencyError.
Proof.
  destruct (validate_shape samples) eqn:Hshape;
    [|unfold encodeWaveform; rewrite Hshape; discriminate].
  destruct (forallb representable (deltas samples)) eqn:Hrep;
    [|unfold encodeWaveform; rewrite Hshape, Hrep; discriminate].
  destruct (scan_two (deltas samples)) as [ts|] eqn:Hscan;
    [|unfold encodeWaveform; rewrite Hshape, Hrep, Hscan; discriminate].
  rewrite (encode_complete scan_two candidates_two correction samples ts)
    by (assumption || now apply scan_two_covered).
  discriminate.
Qed.

(** The zones of the format with the steeper slope first cover what its
    scan accepts. *)
Lemma covers_covered ts ds : forall i,
  covers ts i ds = true ->
  forall k, (k < length ds)%nat ->
    nth k ds 0 = fst (candidates_falling ts (i + k))
    \/ nth k ds 0 = snd (candidates_falling ts (i + k)).
Proof.
  induction ds as [|d ds IH]; intros i H k Hk; [simpl in Hk; lia|].
  cbn [covers] in H. apply andb_true_iff in H as [Hd Hrest].
  destruct k as [|k].
  - rewrite Nat.add_0_r. cbn [nth]. apply orb_true_iff in Hd as [Hd|Hd];
      apply Z.eqb_eq in Hd; auto.
  - cbn [nth]. replace (i + S k)%nat with (S i + k)%nat by lia.
    apply IH; [assumption | simpl in Hk; lia].
Qed.

Lemma scan_falling_covered ds ts :
  scan_falling ds = Some ts -> covered candidates_falling ts ds.
Proof.
  unfold scan_falling. destruct ds as [|d rest]; [discriminate|].
  destruct (covers _ 0 (d :: rest)) eqn:C; [|discriminate].
  intros H. inversion H; subst. intros k Hk.
  apply (covers_covered _ _ 0 C k Hk).
Qed.

End EncoderFacts.

(** * The claims *)

Import MicroStepTable EncoderFacts.

(** ** Round trip of the encoder *)

(** C1.  A table [encodeWaveform] returns reconstructs, from its start value
    and the deltas its packed bits and zone candidates imply, to exactly the
    256 samples that were encoded; and when the table assembled in steps 4
    to 6 does not reconstruct to the samples, [encodeWaveform] fails with
    [InternalConsistencyError] and returns no table.  A table assembled with
    zones whose candidates cover every delta always reconstructs to the
    samples.  This holds for every scan, zone format and start correction. *)
Theorem encodeWaveform_roundtrip
  (scan : list Z -> option TransitionSet) (candidates : TransitionSet -> nat -> Z * Z)
  (correction : list Z -> Z) (samples : list Z) :
  (forall regs,
      encodeWaveform scan candidates correction samples = Table regs ->
      reconstruct candidates regs = samples
      /\ length (reconstruct candidates regs) = 256%nat
      /\ forall i, (i < 256)%nat ->
           nth i (reconstruct candidates regs) 0 = nth i samples 0)
  /\ (forall ts,
        validate_shape samples = true ->
        forallb representable (deltas samples) = true ->
        scan (deltas samples) = Some ts ->
        reconstruct candidates (assemble candidates correction samples ts) <> samples ->
        encodeWaveform scan candidates correction samples
        = Failed InternalConsistencyError)
  /\ (forall ts,
        length samples = 256%nat ->
        covered candidates ts (deltas samples) ->
        reconstruct candidates (assemble candidates correction samples ts) = samples).
Proof.
  split; [|split].
  - intros regs H.
    apply encode_Table in H as (ts & Hshape & _ & _ & _ & Hrec).
    apply validate_shape_spec in Hshape as [Hlen _].
    rewrite Hrec. auto.
  - intros ts Hshape Hrep Hscan Hne. unfold encodeWaveform.
    rewrite Hshape, Hrep, Hscan. cbn [negb].
    destruct (samples_eqb _ samples) eqn:E; [|reflexivity].
    apply samples_eqb_eq in E. contradiction.
  - intros ts. apply reconstruct_assemble.
Qed.

Lemma encodeWaveform_roundtrip_witness :
  (forall regs,
      encodeWaveform scan_two candidates_two no_correction ramp = Table regs ->
      reconstruct candidates_two regs = ramp)
  /\ encodeWaveform scan_two candidates_two no_correction ramp
     = Table (assemble candidates_two no_correction ramp
                {| b_low := 0; b_high := 1; W0 := 100; W1 := 255; W2 := 255 |})
  /\ encodeWaveform scan_two candidates_flat no_correction ramp
     = Failed InternalConsistencyError.
Proof.
  split; [|split].
  - intros regs H.
    exact (proj1 (proj1 (encodeWaveform_roundtrip
                           scan_two candidates_two no_correction ramp) regs H)).
  - vm_compute. reflexivity.
  - apply (proj1 (proj2 (encodeWaveform_roundtrip
                           scan_two candidates_flat no_correction ramp))
             {| b_low := 0; b_high := 1; W0 := 100; W1 := 255; W2 := 255 |}).
    + vm_compute. reflexivity.
    + vm_compute. reflexivity.
    + vm_compute. reflexivity.
    + vm_compute. discriminate.
Defined.

(** ** Steps the table cannot hold *)

(** C3.  A waveform of 256 samples in 0..255 in which some consecutive
    difference [samples[i+1] - samples[i]] is negative or greater than 3 is
    refused with [EncodingError] (non-monotone or step too large), whatever
    the scan and the zone format; no table is returned. *)
Theorem encodeWaveform_rejects_bad_step
  (scan : list Z -> option TransitionSet) (candidates : TransitionSet -> nat -> Z * Z)
  (correction : list Z -> Z) (samples : list Z) (i : nat) :
  validate_shape samples = true ->
  (i < 255)%nat ->
  nth (S i) samples 0 - nth i samples 0 < 0
  \/ 3 < nth (S i) samples 0 - nth i samples 0 ->
  encodeWaveform scan candidates correction samples
  = Failed (EncodingError non_monotone).
Proof.
  intros Hshape Hi Hd. unfold encodeWaveform. rewrite Hshape. cbn [negb].
  apply validate_shape_spec in Hshape as [Hlen _].
  rewrite (bad_delta_not_representable samples i) by (assumption || lia).
  reflexivity.
Qed.

Lemma encodeWaveform_rejects_bad_step_witness :
  encodeWaveform scan_two candidates_two no_correction step_of_four
  = Failed (EncodingError non_monotone)
  /\ encodeWaveform scan_two candidates_two no_correction (rev ramp)
     = Failed (EncodingError non_monotone).
Proof.
  split.
  - apply (encodeWaveform_rejects_bad_step
             scan_two candidates_two no_correction step_of_four 0).
    + vm_compute. reflexivity.
    + lia.
    + right. vm_compute. reflexivity.
  - apply (encodeWaveform_rejects_bad_step
             scan_two candidates_two no_correction (rev ramp) 200).
    + vm_compute. reflexivity.
    + lia.
    + left. vm_compute. reflexivity.
Defined.

(** ** The shape of what the sampler returns *)

(** C2, as stated, fails: 256 values that are all -1, a value outside
    0..255, pass the checks of [sineWave] with nothing raised. *)
Lemma negative_values_pass_the_checks :
  Exists (fun v => ~ (0 <= v <= 255)) (repeat (-1) 256)
  /\ length (repeat (-1) 256) = 256%nat
  /\ check_values (repeat (-1) 256) = ([], Ok (repeat (-1) 256)).
Proof.
  split; [|split].
  - apply Exists_cons_hd. lia.
  - reflexivity.
  - vm_compute. reflexivity.
Qed.

(** C2, amended.  The checks of [sineWave] return the values exactly when
    there are 256 of them and none is above 255; they raise [ValueError]
    exactly when the list is empty or holds a value above 255, and
    [RuntimeError] exactly when a non-empty list of values up to 255 has a
    length other than 256.  So a wrong length or a value above 255 always
    raises and returns nothing, while values below 0 are not looked at. *)
Theorem check_values_shape (values : list Z) :
  (outcome (check_values values) = Ok values <->
   length values = 256%nat /\ Forall (fun v => v <= 255) values)
  /\ (outcome (check_values values) = Raise ValueError <->
      values = [] \/ Exists (fun v => 255 < v) values)
  /\ (outcome (check_values values) = Raise RuntimeError <->
      values <> [] /\ Forall (fun v => v <= 255) values /\ length values <> 256%nat)
  /\ (length values <> 256%nat \/ Exists (fun v => 255 < v) values ->
      outcome (check_values values) = Raise ValueError
      \/ outcome (check_values values) = Raise RuntimeError).
Proof.
  split; [apply check_values_ok|].
  split; [apply check_values_ValueError|].
  split; [apply check_values_RuntimeError|].
  intros H.
  destruct (Exists_dec (fun v => 255 < v) values (fun v => Z_lt_dec 255 v)) as [Ex|Nex].
  - left. apply check_values_ValueError. now right.
  - destruct H as [Hlen|Ex]; [|contradiction].
    destruct values as [|v rest] eqn:Ev.
    + left. apply check_values_ValueError. now left.
    + right. rewrite <- Ev in *. apply check_values_RuntimeError.
      repeat split; [subst; discriminate | | assumption].
      apply Forall_Exists_neg in Nex.
      eapply Forall_impl; [|exact Nex]. simpl; intros; lia.
Qed.

Lemma check_values_shape_witness :
  outcome (check_values (repeat 7 256)) = Ok (repeat 7 256)
  /\ outcome (check_values (repeat 7 255)) = Raise RuntimeError
  /\ outcome (check_values (256 :: repeat 7 255)) = Raise ValueError.
Proof.
  split; [|split].
  - apply (proj1 (check_values_shape (repeat 7 256))). split; [reflexivity|].
    apply Forall_forall. intros v Hv. apply repeat_spec in Hv. lia.
  - apply (proj1 (proj2 (proj2 (check_values_shape (repeat 7 255))))).
    split; [discriminate|]. split; [|discriminate].
    apply Forall_forall. intros v Hv. apply repeat_spec in Hv. lia.
  - apply (proj1 (proj2 (check_values_shape (256 :: repeat 7 255)))).
    right. apply Exists_cons_hd. lia.
Defined.

(** ** The warning on the ceiling *)

(** C5.  256 values whose maximum is above 247 and at most 255 make
    [sineWave] print its warning and return the values: nothing is raised.
    For any list of values the outcome of the checks is the one they have
    without the ceiling check, so the warning never stands in the way. *)
Theorem ceiling_warning_is_advisory (values : list Z) :
  length values = 256%nat ->
  Forall (fun v => v <= 255) values ->
  Exists (fun v => 247 < v) values ->
  check_values values = ([warning], Ok values)
  /\ forall any, outcome (check_values any) = outcome (hard_checks any).
Proof.
  intros Hlen Hall Hex. split.
  - pose proof (check_values_cases values) as C.
    destruct (py_max values) as [m|e] eqn:E.
    + apply py_max_spec in E as [Hin Hmax]. rewrite C.
      rewrite Forall_forall in Hall. pose proof (Hall m Hin).
      apply Exists_exists in Hex as (v & Hv & Hgt).
      rewrite Forall_forall in Hmax. pose proof (Hmax v Hv).
      destruct (m >=? 256) eqn:G; [lia|].
      destruct (m >? 247) eqn:G'; [|lia].
      rewrite Hlen. reflexivity.
    + apply py_max_empty in E as [-> _]. discriminate.
  - intros any. pose proof (check_values_cases any) as C.
    pose proof (hard_checks_cases any) as H.
    destruct (py_max any) as [m|e]; rewrite C, H; [|reflexivity].
    destruct (m >=? 256); reflexivity.
Qed.

Lemma ceiling_warning_is_advisory_witness :
  check_values (repeat 250 256) = ([warning], Ok (repeat 250 256)).
Proof.
  apply (ceiling_warning_is_advisory (repeat 250 256)).
  - reflexivity.
  - apply Forall_forall. intros v Hv. apply repeat_spec in Hv. lia.
  - apply Exists_cons_hd. lia.
Defined.

(** [sineWave(0, 250)] prints the warning and returns its 256 values. *)
Lemma sineWave_warns_and_returns (L : Libm) :
  finite_sin L ->
  sineWave (PyInt 0) (PyInt 250) default_sampling_points
  = Some (([warning], Ok (repeat 250 256)), default_sampling_points).
Proof.
  intros Hsin.
  rewrite (sineWave_flat Hsin 250 (Float.of_scaled 250 0)) by (vm_compute; reflexivity).
  f_equal.
Qed.

(** ** No lower bound *)

(** C8.  A list [sineWave] returns has exactly 256 elements, none above 255.
    There is no lower bound: with amplitude 0 and offset -1 it returns 256
    times -1 over the default sampling points, and nothing is raised or
    printed.  The C library's sine is taken to be finite on finite numbers. *)
Theorem sineWave_has_no_lower_bound (L : Libm) :
  finite_sin L ->
  (forall amplitude offset obj out values obj',
      sineWave amplitude offset obj = Some ((out, Ok values), obj') ->
      length values = 256%nat /\ Forall (fun v => v <= 255) values)
  /\ (exists a o values,
        o < 0
        /\ sineWave (PyInt a) (PyInt o) default_sampling_points
           = Some (([], Ok values), default_sampling_points)
        /\ Exists (fun v => v < 0) values).
Proof.
  intros Hsin. split.
  - intros amplitude offset obj out values obj'. unfold sineWave.
    destruct (negb (both_int amplitude offset)); [discriminate|].
    destruct (for_each _ _ _ _ _) as [[r it']|]; [|discriminate].
    intros H; inversion H as [[Hr Hobj]].
    apply checked_Ok in Hr as [_ Hc].
    apply check_values_ok. rewrite Hc. reflexivity.
  - exists 0, (-1), (repeat (-1) 256). split; [lia|]. split.
    + rewrite (sineWave_flat Hsin (-1) (Float.of_scaled (-1) 0))
        by (vm_compute; reflexivity).
      f_equal.
    + apply Exists_cons_hd. lia.
Qed.

Lemma sineWave_has_no_lower_bound_witness :
  exists a o values,
    o < 0
    /\ @sineWave small_angle (PyInt a) (PyInt o) default_sampling_points
       = Some (([], Ok values), default_sampling_points)
    /\ Exists (fun v => v < 0) values.
Proof.
  exact (proj2 (sineWave_has_no_lower_bound small_angle (fun x Hx => Hx))).
Defined.

(** ** The type check *)

(** C9, as stated, fails: with amplitude and offset of type [int], here the
    script's 248 and -1, [sineWave] raises [TypeError] for a list of
    sampling points that holds [None], once the loop reaches it, and for
    sampling points that are not iterable, such as the [int] 5. *)
Lemma TypeError_from_the_sampling_points :
  type (PyInt MICROSTEP_AMPLITUDE) = TInt
  /\ type (PyInt MICROSTEP_OFFSET) = TInt
  /\ @AnyObject.sineWave small_angle (PyInt MICROSTEP_AMPLITUDE) (PyInt MICROSTEP_OFFSET)
       (AnyObject.Objects [PyInt 0; PyNone])
     = Some (raise TypeError, AnyObject.Objects [PyInt 0; PyNone])
  /\ @AnyObject.sineWave small_angle (PyInt MICROSTEP_AMPLITUDE) (PyInt MICROSTEP_OFFSET)
       (AnyObject.Scalar (PyInt 5))
     = Some (raise TypeError, AnyObject.Scalar (PyInt 5)).
Proof. repeat split; vm_compute; reflexivity. Qed.

(** C9, amended.  The type check is the first thing [sineWave] does.  When
    amplitude or offset is not of type [int], [TypeError] is raised with
    nothing printed and the sampling points untouched, whatever object they
    are: not one point has been drawn.  When both are of type [int],
    [TypeError] is raised exactly when the sampling points are not iterable,
    or when the loop reaches a position that is no number, the positions
    before it sampled; a range, a list of numbers, or a generator of the
    script (the modulated one made with a number as its amplitude) never
    gives one. *)
Theorem sineWave_TypeError (L : Libm) (amplitude offset : value)
  (arg : AnyObject.argument) :
  (both_int amplitude offset = true <-> type amplitude = TInt /\ type offset = TInt)
  /\ (both_int amplitude offset = false ->
      AnyObject.sineWave amplitude offset arg = Some (raise TypeError, arg))
  /\ (both_int amplitude offset = true ->
      exists r arg',
        AnyObject.sineWave amplitude offset arg = Some (r, arg')
        /\ (outcome r = Raise TypeError
            <-> AnyObject.listed arg = Some (Raise TypeError)
                \/ exists before bad rest sampled,
                     AnyObject.listed arg = Some (Ok (before ++ bad :: rest))
                     /\ AnyObject.is_number bad = false
                     /\ AnyObject.sample_all amplitude offset before [] = Ok sampled)
        /\ (forall obj, arg = AnyObject.Iterable obj -> outcome r <> Raise TypeError)
        /\ (forall points,
              arg = AnyObject.Objects (map AnyObject.value_of points) ->
              outcome r <> Raise TypeError)).
Proof.
  split; [apply both_int_spec|]. split.
  - intros H. destruct arg as [obj|items|v]; cbn [AnyObject.sineWave].
    + unfold sineWave. rewrite H. reflexivity.
    + unfold AnyObject.sineWave_over. rewrite H. reflexivity.
    + unfold AnyObject.sineWave_over. rewrite H. reflexivity.
  - intros H.
    destruct (sineWave_any_TypeError amplitude offset arg H) as (r & arg' & E & Hiff).
    exists r, arg'. split; [exact E|]. split; [exact Hiff|]. split.
    + intros obj -> T. apply Hiff in T
        as [T|(before & bad & rest & sampled & T & _)]; discriminate.
    + intros points -> T. rewrite sineWave_any_numbers in E.
      assert (Hr : r = sineWave_of amplitude offset points) by congruence.
      apply Hiff in T as [T|(before & bad & rest & sampled & T & Hbad & _)];
        [discriminate|].
      cbn [AnyObject.listed] in T.
      assert (Hin : In bad (map AnyObject.value_of points)).
      { assert (Hm : map AnyObject.value_of points = before ++ bad :: rest) by congruence.
        rewrite Hm. apply in_elt. }
      apply in_map_iff in Hin as (i & <- & _). destruct i; discriminate.
Qed.

Lemma sineWave_TypeError_witness :
  @AnyObject.sineWave small_angle (PyFloat Float.half) (PyInt 0)
    (AnyObject.Iterable (PyGen linearGenerator))
  = Some (raise TypeError, AnyObject.Iterable (PyGen linearGenerator))
  /\ @AnyObject.sineWave small_angle (PyInt 1) (PyBool true)
       (AnyObject.Objects [PyNone])
     = Some (raise TypeError, AnyObject.Objects [PyNone])
  /\ exists r arg',
       @AnyObject.sineWave small_angle (PyInt MICROSTEP_AMPLITUDE) (PyInt MICROSTEP_OFFSET)
         (AnyObject.Iterable (PyGen linearGenerator))
       = Some (r, arg')
       /\ outcome r <> Raise TypeError.
Proof.
  split; [|split].
  - apply (proj1 (proj2 (sineWave_TypeError small_angle (PyFloat Float.half) (PyInt 0)
                           (AnyObject.Iterable (PyGen linearGenerator))))).
    reflexivity.
  - apply (proj1 (proj2 (sineWave_TypeError small_angle (PyInt 1) (PyBool true)
                           (AnyObject.Objects [PyNone])))).
    reflexivity.
  - destruct (proj2 (proj2 (sineWave_TypeError small_angle (PyInt 248) (PyInt (-1))
                              (AnyObject.Iterable (PyGen linearGenerator))))
                eq_refl)
      as (r & arg' & E & _ & Hit & _).
    exists r, arg'. split; [exact E | exact (Hit _ eq_refl)].
Defined.

(** ** The two equidistant generators *)

Lemma hardcoded_values_range : hardcoded_values = range 0 256.
Proof. reflexivity. Qed.

Lemma range_nth start stop k :
  (k < Z.to_nat (stop - start))%nat ->
  nth_error (range start stop) k = Some (start + Z.of_nat k).
Proof.
  intros Hk. unfold range.
  rewrite nth_error_map, nth_error_nth' with (d := 0%nat) by now rewrite length_seq.
  rewrite seq_nth by assumption. reflexivity.
Qed.

(** C10.  [linearGenerator] and [hardcodedGenerator] both give the 256 values
    0, 1, ..., 255 in this order and then stop, so [sineWave] prints and
    returns the same for either, for any amplitude and offset. *)
Theorem equidistant_generators_agree (L : Libm) :
  to_list (PyGen linearGenerator)
  = Some (Ok (map NInt (range 0 256)), PyGen (linear Finished))
  /\ to_list (PyGen hardcodedGenerator)
     = Some (Ok (map NInt (range 0 256)), PyGen (hardcoded DFinished))
  /\ length (range 0 256) = 256%nat
  /\ (forall k, (k < 256)%nat -> nth_error (range 0 256) k = Some (Z.of_nat k))
  /\ (forall amplitude offset,
        exists r g1 g2,
          sineWave amplitude offset (PyGen linearGenerator) = Some (r, g1)
          /\ sineWave amplitude offset (PyGen hardcodedGenerator) = Some (r, g2)
          /\ r = sineWave_of amplitude offset (map NInt (range 0 256))).
Proof.
  assert (Hlin : to_list (PyGen linearGenerator)
                 = Some (Ok (map NInt (range 0 256)), PyGen (linear Finished)))
    by (vm_compute; reflexivity).
  assert (Hhard : to_list (PyGen hardcodedGenerator)
                  = Some (Ok (map NInt (range 0 256)), PyGen (hardcoded DFinished)))
    by (vm_compute; reflexivity).
  repeat split; try assumption.
  - intros k Hk. rewrite range_nth by (simpl; lia). reflexivity.
  - intros amplitude offset.
    destruct (sineWave_points amplitude offset _ _ _ Hlin) as (g1 & E1 & _).
    destruct (sineWave_points amplitude offset _ _ _ Hhard) as (g2 & E2 & _).
    eauto 6.
Qed.

(** ** Determinism *)




(** ** Termination *)

(** C7.  Every call of [sineWave] returns or raises, for any amplitude,
    offset and sampling points (a range, a list, or one of the generators in
    any state): the bound on its loop is never what stops it.  Draining any
    of them ends too; [linearGenerator] ends after its 256 values, when its
    counter has reached 256, and so does [longitualWaveGenerator] unless it
    raised before.  The encoder returns a table or an error for every list
    of samples. *)
Theorem everything_terminates (L : Libm) :
  (forall amplitude offset obj,
      exists r obj', sineWave amplitude offset obj = Some (r, obj'))
  /\ (forall obj, exists r obj', to_list obj = Some (r, obj'))
  /\ to_list (PyGen linearGenerator)
     = Some (Ok (map NInt (range 0 256)), PyGen (linear Finished))
  /\ (forall value, 256 <= value + 1 ->
        resume (linear (AtYield value)) = (Ok None, linear Finished))
  /\ (forall amplitude value, 256 <= value + 1 ->
        resume (longitual amplitude (AtYield value))
        = (Ok None, longitual amplitude Finished))
  /\ (forall scan candidates correction samples,
        exists e, encodeWaveform scan candidates correction samples = e).
Proof.
  split; [intros; apply sineWave_total|].
  split; [intros; apply to_list_total|].
  split; [vm_compute; reflexivity|].
  split; [|split].
  - intros value Hv. cbn [resume]. unfold linear_loop.
    destruct (value + 1 <? 256) eqn:E; [|reflexivity].
    apply Z.ltb_lt in E. lia.
  - intros amplitude value Hv. cbn [resume]. unfold longitual_loop.
    destruct (value + 1 <? 256) eqn:E; [|reflexivity].
    apply Z.ltb_lt in E. lia.
  - intros. eexists. reflexivity.
Qed.

(** ** The sine wave of the script *)




(** * More of the script *)

(** ** What a returned list says about the call and its argument *)

(** X1.  A list [sineWave] returns is made of the samples of the points its
    argument gives, in their order, and the argument gave exactly 256 of
    them: whatever it is, it has been drawn to its end. *)
Theorem sineWave_returns_the_samples (L : Libm) (amplitude offset : value)
  (obj : iterable) (out : list string) (values : list Z) (obj' : iterable) :
  sineWave amplitude offset obj = Some ((out, Ok values), obj') ->
  exists points,
    to_list obj = Some (Ok points, obj')
    /\ length points = 256%nat
    /\ Forall2 (fun i v => sample amplitude offset i = Ok v) points values.
Proof.
  intros H. apply sineWave_returned in H as (_ & it' & F & -> & Hc).
  apply for_each_points in F as (points & D & S).
  apply sample_all_values in S as (sampled & E & Hall). cbn [app] in E. subst sampled.
  exists points. split; [|split; [|assumption]].
  - unfold to_list. now rewrite D.
  - assert (Hv : outcome (check_values values) = Ok values) by now rewrite Hc.
    apply check_values_ok in Hv as [Hlen _].
    rewrite (Forall2_length Hall). assumption.
Qed.

Lemma sineWave_returns_the_samples_witness :
  exists points,
    @to_list small_angle (PyGen hardcodedGenerator)
    = Some (Ok points, PyGen (hardcoded DFinished))
    /\ length points = 256%nat
    /\ Forall2 (fun i v => @sample small_angle (PyInt 0) (PyInt 7) i = Ok v)
               points (repeat 7 256).
Proof.
  apply (sineWave_returns_the_samples small_angle (PyInt 0) (PyInt 7)
           (PyGen hardcodedGenerator) []).
  vm_compute. reflexivity.
Defined.

(** X2.  A generator handed to [sineWave] is used up by a call that returns
    a list: it is left finished, and a second call with the same generator
    finds no points and raises [ValueError] (from [max] of an empty list),
    with nothing printed. *)
Theorem sineWave_uses_up_a_generator (L : Libm) (amplitude offset : value)
  (g : generator) (out : list string) (values : list Z) (obj' : iterable) :
  sineWave amplitude offset (PyGen g) = Some ((out, Ok values), obj') ->
  exists g',
    obj' = PyGen g'
    /\ resume g' = (Ok None, g')
    /\ sineWave amplitude offset obj' = Some (([], Raise ValueError), obj').
Proof.
  intros H. apply sineWave_returned in H as (Hint & it' & F & -> & _).
  cbn [iter] in F. pose proof (for_each_stopped _ _ _ _ _ _ _ F) as Hstop.
  apply for_each_resumed in F as (g0 & ->).
  set (g' := snd (resume g0)) in *. cbn [after].
  cbn [next] in Hstop. destruct (resume g') as [r g1] eqn:E.
  inversion Hstop; subst. exists g'. split; [reflexivity|]. split; [assumption|].
  unfold sineWave. rewrite Hint. cbn [negb iter for_each next]. rewrite E.
  cbn [after]. reflexivity.
Qed.

Lemma sineWave_uses_up_a_generator_witness :
  exists g',
    @resume small_angle g' = (Ok None, g')
    /\ @sineWave small_angle (PyInt 0) (PyInt 7) (PyGen g')
       = Some (([], Raise ValueError), PyGen g').
Proof.
  destruct (sineWave_uses_up_a_generator small_angle (PyInt 0) (PyInt 7)
              linearGenerator [] (repeat 7 256) (PyGen (linear Finished)))
    as (g' & Hobj & Hstop & Hcall).
  - vm_compute. reflexivity.
  - exists g'. rewrite Hobj in Hcall. split; assumption.
Defined.

(** ** What sampling can raise *)

Section Raised.

Context {L : Libm}.

Lemma bind_raises {A B} (r : result A) (k : A -> result B) e :
  bind r k = Raise e -> r = Raise e \/ exists a, r = Ok a /\ k a = Raise e.
Proof. destruct r as [a|e']; simpl; intros H; [right; eauto | left; congruence]. Qed.

Lemma of_int_raises z e : Float.of_int z = Raise e -> e = OverflowError.
Proof.
  unfold Float.of_int. destruct (Float.is_infinity _); intros H; inversion H.
  reflexivity.
Qed.

Lemma of_num_raises i e : Float.of_num i = Raise e -> e = OverflowError.
Proof. destruct i; simpl; [apply of_int_raises | discriminate]. Qed.

Lemma math_sin_raises x e : math_sin x = Raise e -> e = ValueError.
Proof.
  unfold math_sin.
  destruct (Float.is_nan (libm_sin x) && negb (Float.is_nan x));
    [intros H; inversion H; reflexivity|].
  destruct (Float.is_infinity (libm_sin x) && Float.is_finite x);
    intros H; inversion H; reflexivity.
Qed.

Lemma round_raises f e :
  Float.round f = Raise e -> e = ValueError \/ e = OverflowError.
Proof. destruct f; simpl; intros H; inversion H; auto. Qed.

Lemma as_float_raises v e :
  as_float v = Raise e -> e = OverflowError \/ e = TypeError.
Proof.
  destruct v; simpl; intros H;
    try (apply of_int_raises in H); try (inversion H; fail); auto;
    inversion H; auto.
Qed.

(** The loop body raises [ValueError], [OverflowError] or, for an
    amplitude or offset that is no number, [TypeError]; never
    [RuntimeError]. *)
Lemma sample_raises amplitude offset i e :
  sample amplitude offset i = Raise e ->
  e = ValueError \/ e = OverflowError \/ e = TypeError.
Proof.
  unfold sample. intros H.
  apply bind_raises in H as [H|(fi & _ & H)]; [apply of_num_raises in H; auto|].
  apply bind_raises in H as [H|(s & _ & H)]; [apply math_sin_raises in H; auto|].
  apply bind_raises in H as [H|(a & _ & H)];
    [apply as_float_raises in H; tauto|].
  apply bind_raises in H as [H|(o & _ & H)];
    [apply as_float_raises in H; tauto|].
  apply round_raises in H. tauto.
Qed.

Lemma longitual_point_raises amplitude value e :
  longitual_point amplitude value = Raise e ->
  e = ValueError \/ e = OverflowError.
Proof.
  unfold longitual_point. intros H.
  apply bind_raises in H as [H|(fv & _ & H)]; [apply of_int_raises in H; auto|].
  apply bind_raises in H as [H|(s & _ & H)]; [apply math_sin_raises in H; auto|].
  apply bind_raises in H as [H|(a & _ & H)]; [apply of_num_raises in H; auto|].
  discriminate.
Qed.

Lemma sample_all_raises amplitude offset points :
  forall values e,
    sample_all amplitude offset points values = Raise e ->
    e = ValueError \/ e = OverflowError \/ e = TypeError.
Proof.
  induction points as [|i points IH]; intros values e; cbn [sample_all];
    [discriminate|].
  destruct (sample amplitude offset i) as [v|e'] eqn:E; [apply IH|].
  intros H; inversion H; subst. apply (sample_raises _ _ _ _ E).
Qed.

(** Draining [longitualWaveGenerator] from a state of its loop: it ends
    finished, with one float per turn left up to 255, unless a point
    raised. *)
Lemma drain_longitual amplitude fuel :
  forall value r it',
    drain fuel (GenIter (longitual amplitude (AtYield value))) = Some (r, it') ->
    it' = GenIter (longitual amplitude Finished)
    /\ match r with
       | Ok points =>
           length points = Z.to_nat (255 - value)
           /\ Forall (fun p => exists f, p = NFloat f) points
       | Raise e => e = ValueError \/ e = OverflowError
       end.
Proof.
  induction fuel as [|fuel IH]; intros value r it'; cbn [drain next resume];
    [discriminate|].
  unfold longitual_loop. destruct (value + 1 <? 256) eqn:E.
  - apply Z.ltb_lt in E.
    destruct (longitual_point amplitude (value + 1)) as [p|e] eqn:P.
    + destruct (drain fuel (GenIter (longitual amplitude (AtYield (value + 1)))))
        as [[r1 it1]|] eqn:D; [|discriminate].
      apply IH in D as [-> Hr1]. destruct r1 as [rest|e].
      * intros H; inversion H; subst. split; [reflexivity|].
        destruct Hr1 as [Hlen Hall]. split.
        -- cbn [length]. rewrite Hlen. lia.
        -- constructor; [eauto | assumption].
      * intros H; inversion H; subst. auto.
    + intros H; inversion H; subst. split; [reflexivity|].
      apply (longitual_point_raises _ _ _ P).
  - apply Z.ltb_ge in E. intros H; inversion H; subst.
    split; [reflexivity|]. split; [cbn [length]; lia | constructor].
Qed.

End Raised.

(** X3.  [list(longitualWaveGenerator(amplitude))] always ends with the
    generator finished; it either gives exactly 256 points, all of them
    floats, or raises [ValueError] (from [math.sin]) or [OverflowError]
    (an amplitude too large for a float). *)
Theorem longitualWaveGenerator_gives_256_floats (L : Libm) (amplitude : num) :
  exists r,
    to_list (PyGen (longitualWaveGenerator amplitude))
    = Some (r, PyGen (longitual amplitude Finished))
    /\ match r with
       | Ok points =>
           length points = 256%nat
           /\ Forall (fun p => exists f, p = NFloat f) points
       | Raise e => e = ValueError \/ e = OverflowError
       end.
Proof.
  destruct (to_list_total (PyGen (longitualWaveGenerator amplitude)))
    as (r & obj' & E).
  exists r. unfold to_list in *. cbn [iter] in *.
  destruct (drain _ _) as [[r0 it']|] eqn:D; [|discriminate].
  inversion E; subst. clear E.
  assert (D' : drain (S (remaining (GenIter (longitualWaveGenerator amplitude))))
                 (GenIter (longitual amplitude (AtYield (-1)))) = Some (r, it')).
  { rewrite <- D. reflexivity. }
  apply drain_longitual in D' as [-> Hr]. split; [reflexivity|].
  destruct r; [|assumption]. destruct Hr as [Hlen Hall]. split; assumption.
Qed.

(** ** Modulation of amplitude zero *)

Lemma range_cons start stop :
  start < stop -> range start stop = start :: range (start + 1) stop.
Proof.
  intros H. unfold range.
  replace (Z.to_nat (stop - start)) with (S (Z.to_nat (stop - (start + 1)))) by lia.
  cbn [List.seq map]. f_equal; [lia|].
  rewrite <- seq_shift, map_map. apply map_ext. intros k. lia.
Qed.

Lemma range_nil start stop : stop <= start -> range start stop = [].
Proof.
  intros H. unfold range. replace (Z.to_nat (stop - start)) with 0%nat by lia.
  reflexivity.
Qed.

Lemma In_range start stop v : start <= v < stop -> In v (range start stop).
Proof.
  intros H. unfold range. apply in_map_iff.
  exists (Z.to_nat (v - start)). split; [lia|]. apply in_seq. lia.
Qed.

Lemma quiet_counter v : 0 <= v < 256 -> quiet v = true.
Proof.
  intros H.
  assert (A : forallb quiet (range 0 256) = true) by (vm_compute; reflexivity).
  rewrite forallb_forall in A. apply A, In_range, H.
Qed.

Lemma quiet_of_int v :
  quiet v = true -> Float.of_int v = Ok (Float.of_scaled v 0).
Proof.
  unfold quiet, Float.of_int.
  destruct (Float.is_infinity (Float.of_scaled v 0)); [discriminate|reflexivity].
Qed.

Section ZeroModulation.

Context {L : Libm}.
Hypothesis sin_finite : finite_sin L.

(** With amplitude 0 the point computed at the counter value [v] is the
    float of [v], whatever the sine is. *)
Lemma longitual_point_zero v :
  quiet v = true -> longitual_point (NInt 0) v = Ok (Float.of_scaled v 0).
Proof.
  intros Hq. unfold longitual_point. rewrite (quiet_of_int v Hq). cbn [bind].
  unfold quiet in Hq. rewrite (quiet_of_int v Hq) in Hq.
  apply andb_true_iff in Hq as [Hx Hv].
  unfold math_sin. specialize (sin_finite _ Hx).
  destruct (libm_sin _) as [s|s| |s m e]; try discriminate;
    cbn [Float.is_nan Float.is_infinity andb bind Float.of_num];
    change (Float.of_int 0) with (@Ok spec_float (S754_zero false)); cbn [bind];
    destruct (Float.of_scaled v 0) as [[|]|sz| |sz mz ez]; try discriminate;
    destruct s; reflexivity.
Qed.

Lemma drain_zero fuel :
  forall v, -1 <= v <= 255 -> (Z.to_nat (255 - v) < fuel)%nat ->
    drain fuel (GenIter (longitual (NInt 0) (AtYield v)))
    = Some (Ok (map float_point (range (v + 1) 256)),
            GenIter (longitual (NInt 0) Finished)).
Proof.
  induction fuel as [|fuel IH]; intros v Hv Hfuel; [lia|].
  cbn [drain next resume]. unfold longitual_loop.
  destruct (v + 1 <? 256) eqn:E.
  - apply Z.ltb_lt in E.
    rewrite longitual_point_zero by (apply quiet_counter; lia).
    rewrite IH by lia. rewrite (range_cons (v + 1) 256) by lia. reflexivity.
  - apply Z.ltb_ge in E. rewrite range_nil by lia. reflexivity.
Qed.

(** A float position that is the float of an integer is sampled as the
    integer is. *)
Lemma sample_float_point amplitude offset v :
  quiet v = true ->
  sample amplitude offset (float_point v) = sample amplitude offset (NInt v).
Proof.
  intros Hq. unfold sample, float_point. cbn [Float.of_num].
  now rewrite (quiet_of_int v Hq).
Qed.

Lemma sample_all_float_points amplitude offset l :
  Forall (fun v => quiet v = true) l ->
  forall values,
    sample_all amplitude offset (map float_point l) values
    = sample_all amplitude offset (map NInt l) values.
Proof.
  induction 1 as [|v l Hv Hl IH]; intros values; [reflexivity|].
  cbn [map sample_all]. rewrite (sample_float_point amplitude offset v Hv).
  destruct (sample amplitude offset (NInt v)); [apply IH | reflexivity].
Qed.

End ZeroModulation.

Lemma drain_longitual_start (L : Libm) amplitude fuel :
  drain (S fuel) (GenIter (longitual amplitude Start))
  = drain (S fuel) (GenIter (longitual amplitude (AtYield (-1)))).
Proof. reflexivity. Qed.

(** X4.  With modulation amplitude 0 the modulated generator gives the
    equidistant points: [list(longitualWaveGenerator(0))] is the list of the
    floats 0.0, 1.0, ..., 255.0, and [sineWave] prints and returns over it
    what it does over its default sampling points [range(0, 256)], for any
    amplitude and offset.  The C library's sine is taken to be finite on
    finite numbers. *)
Theorem zero_modulation_is_equidistant (L : Libm) :
  finite_sin L ->
  to_list (PyGen (longitualWaveGenerator (NInt 0)))
  = Some (Ok (map float_point (range 0 256)), PyGen (longitual (NInt 0) Finished))
  /\ forall amplitude offset,
       exists r,
         sineWave amplitude offset (PyList (map float_point (range 0 256)))
         = Some (r, PyList (map float_point (range 0 256)))
         /\ sineWave amplitude offset default_sampling_points
            = Some (r, default_sampling_points).
Proof.
  intros Hsin. split.
  - unfold to_list, longitualWaveGenerator. cbn [iter after remaining].
    rewrite drain_longitual_start.
    rewrite (drain_zero Hsin 257 (-1)) by lia. reflexivity.
  - intros amplitude offset.
    destruct (sineWave_points amplitude offset _ _ _
                (to_list_PyList (map float_point (range 0 256))))
      as (o1 & E1 & H1).
    destruct (sineWave_points amplitude offset _ _ _ (to_list_PyRange 0 256))
      as (o2 & E2 & H2).
    rewrite (H1 I) in E1. rewrite (H2 I) in E2.
    assert (Heq : sineWave_of amplitude offset (map float_point (range 0 256))
                  = sineWave_of amplitude offset (map NInt (range 0 256))).
    { unfold sineWave_of. rewrite sample_all_float_points; [reflexivity|].
      apply Forall_forall. intros v Hv. apply quiet_counter.
      unfold range in Hv. apply in_map_iff in Hv as (k & <- & Hk).
      apply in_seq in Hk. lia. }
    exists (sineWave_of amplitude offset (map NInt (range 0 256))).
    rewrite <- Heq at 1. split; [exact E1 | exact E2].
Qed.

Lemma zero_modulation_is_equidistant_witness :
  @to_list small_angle (PyGen (longitualWaveGenerator (NInt 0)))
  = Some (Ok (map float_point (range 0 256)), PyGen (longitual (NInt 0) Finished)).
Proof.
  exact (proj1 (zero_modulation_is_equidistant small_angle (fun x Hx => Hx))).
Defined.

(** ** Sampling the points of a generator *)

(** Over a list of 256 points [sineWave] does not raise [RuntimeError], and
    the list is as it was afterwards. *)
Lemma sineWave_256_points (L : Libm) amplitude offset points :
  length points = 256%nat ->
  exists r,
    sineWave amplitude offset (PyList points) = Some (r, PyList points)
    /\ outcome r <> Raise RuntimeError.
Proof.
  intros Hlen.
  destruct (sineWave_points amplitude offset _ _ _ (to_list_PyList points))
    as (obj2 & E & Hobj).
  rewrite (Hobj I) in E. exists (sineWave_of amplitude offset points).
  split; [exact E|]. unfold sineWave_of.
  destruct (both_int amplitude offset); cbn [negb]; [|discriminate].
  rewrite outcome_checked.
  destruct (sample_all amplitude offset points []) as [values|e] eqn:S.
  - apply sample_all_values in S as (sampled & -> & Hall). cbn [app].
    intros H. apply check_values_RuntimeError in H as (_ & _ & H).
    apply H. rewrite <- (Forall2_length Hall). assumption.
  - apply sample_all_raises in S. intros H. inversion H; subst.
    destruct S as [S|[S|S]]; discriminate.
Qed.

Lemma to_list_longitual (L : Libm) amplitude r obj' :
  to_list (PyGen (longitualWaveGenerator amplitude)) = Some (r, obj') ->
  match r with
  | Ok points => length points = 256%nat
  | Raise e => e = ValueError \/ e = OverflowError
  end.
Proof.
  unfold to_list, longitualWaveGenerator. cbn [iter remaining].
  rewrite drain_longitual_start.
  destruct (drain _ _) as [[r0 it']|] eqn:D; [|discriminate].
  intros H. assert (r0 = r) by congruence. subst r0.
  apply drain_longitual in D as [_ Hr]. destruct r; [|assumption].
  destruct Hr as [Hlen _]. rewrite Hlen. reflexivity.
Qed.

(** X5.  The script's generators give [sineWave] the number of points it
    wants: the list of what [linearGenerator], [hardcodedGenerator] or
    [longitualWaveGenerator] gives has exactly 256 points, so [sineWave]
    over that list never raises [RuntimeError] (256 sampling points are
    required), and it leaves the list as it was. *)
Theorem generators_give_256_points (L : Libm) (g : generator)
  (points : list num) (obj1 : iterable) (amplitude offset : value) :
  g = linearGenerator \/ g = hardcodedGenerator
  \/ (exists modulation, g = longitualWaveGenerator modulation) ->
  to_list (PyGen g) = Some (Ok points, obj1) ->
  length points = 256%nat
  /\ exists r,
       sineWave amplitude offset (PyList points) = Some (r, PyList points)
       /\ outcome r <> Raise RuntimeError.
Proof.
  intros Hg Hlist.
  assert (Hlen : length points = 256%nat).
  { destruct Hg as [->|[->|(modulation & ->)]].
    - assert (E : to_list (PyGen linearGenerator)
                  = Some (Ok (map NInt (range 0 256)), PyGen (linear Finished)))
        by (vm_compute; reflexivity).
      assert (points = map NInt (range 0 256)) as -> by congruence.
      reflexivity.
    - assert (E : to_list (PyGen hardcodedGenerator)
                  = Some (Ok (map NInt (range 0 256)), PyGen (hardcoded DFinished)))
        by (vm_compute; reflexivity).
      assert (points = map NInt (range 0 256)) as -> by congruence.
      reflexivity.
    - apply (to_list_longitual L modulation _ _ Hlist). }
  split; [assumption|]. apply sineWave_256_points. assumption.
Qed.

Lemma generators_give_256_points_witness :
  exists r,
    @sineWave small_angle (PyInt MICROSTEP_AMPLITUDE) (PyInt MICROSTEP_OFFSET)
      (PyList (map NInt hardcoded_values))
    = Some (r, PyList (map NInt hardcoded_values))
    /\ outcome r <> Raise RuntimeError.
Proof.
  apply (proj2 (generators_give_256_points small_angle hardcodedGenerator
                  (map NInt hardcoded_values) (PyGen (hardcoded DFinished))
                  (PyInt MICROSTEP_AMPLITUDE) (PyInt MICROSTEP_OFFSET)
                  (or_intror (or_introl eq_refl))
                  ltac:(vm_compute; reflexivity))).
Defined.

(** ** What is printed *)

(** X6.  [sineWave] prints nothing or its one warning.  The warning comes
    with a returned list or with the [RuntimeError] for a wrong number of
    points, never with another exception; and a returned list comes with the
    warning exactly when one of its values is above 247. *)
Theorem sineWave_prints_at_most_the_warning (L : Libm) (amplitude offset : value)
  (obj : iterable) (out : list string) (res : result (list Z)) (obj' : iterable) :
  sineWave amplitude offset obj = Some ((out, res), obj') ->
  (out = [] \/ out = [warning])
  /\ (out = [warning] -> res = Raise RuntimeError \/ exists values, res = Ok values)
  /\ (forall values, res = Ok values ->
        (out = [warning] <-> Exists (fun v => 247 < v) values)).
Proof.
  unfold sineWave. destruct (negb (both_int amplitude offset)).
  { intros H. assert (out = []) by (unfold raise in H; congruence).
    subst. repeat split; auto; try discriminate.
    assert (res = Raise TypeError) by (unfold raise in H; congruence).
    subst. discriminate. }
  destruct (for_each _ _ _ _ _) as [[r it']|]; [|discriminate].
  intros H.
  assert (Hr : (v <~ lift r ;; check_values v) = (out, res)) by congruence.
  clear H. destruct r as [vs|e].
  - assert (Hc : check_values vs = (out, res)).
    { unfold lift, andthen in Hr. destruct (check_values vs). exact Hr. }
    clear Hr. pose proof (check_values_cases vs) as C.
    destruct (py_max vs) as [m|e] eqn:M.
    + apply py_max_spec in M as [Hin Hmax]. rewrite Hc in C.
      destruct (m >=? 256) eqn:G.
      * inversion C; subst. repeat split; auto; discriminate.
      * assert (Hout : out = if m >? 247 then [warning] else []) by congruence.
        assert (Hres : res = if Z.of_nat (length vs) =? 256 then Ok vs
                             else Raise RuntimeError) by congruence.
        clear C Hc. split; [destruct (m >? 247); auto|]. split.
        -- intros _. rewrite Hres. destruct (_ =? 256); eauto.
        -- intros values Hv. rewrite Hres in Hv.
           destruct (_ =? 256); [|discriminate]. inversion Hv; subst values.
           rewrite Hout. destruct (m >? 247) eqn:G'; split; intros H;
             try discriminate; try reflexivity.
           ++ apply Exists_exists. exists m. split; [assumption|lia].
           ++ apply Exists_exists in H as (v & Hv' & Hgt).
              rewrite Forall_forall in Hmax. apply Hmax in Hv'. lia.
    + rewrite Hc in C. inversion C; subst. repeat split; auto; discriminate.
  - unfold lift, andthen in Hr. inversion Hr; subst.
    repeat split; auto; discriminate.
Qed.

Lemma sineWave_prints_at_most_the_warning_witness :
  @sineWave small_angle (PyInt 0) (PyInt 250) (PyList [NInt 0])
  = Some (([warning], Raise RuntimeError), PyList [NInt 0])
  /\ ([warning] = [warning] ->
      @Raise (list Z) RuntimeError = Raise RuntimeError
      \/ exists values, @Raise (list Z) RuntimeError = Ok values).
Proof.
  assert (E : @sineWave small_angle (PyInt 0) (PyInt 250) (PyList [NInt 0])
              = Some (([warning], Raise RuntimeError), PyList [NInt 0]))
    by (vm_compute; reflexivity).
  split; [exact E|].
  exact (proj1 (proj2 (sineWave_prints_at_most_the_warning small_angle
                         (PyInt 0) (PyInt 250) (PyList [NInt 0])
                         [warning] (Raise RuntimeError) (PyList [NInt 0]) E))).
Defined.

(** ** The main part of the script *)

Module MainFacts.

Import Main.

Section WithTable.

Context {L : Libm}.
Variable encodeWaveform : list Z -> result RegisterSet.
Variable truth : RegisterSet -> bool.
Variable equals_None : RegisterSet -> bool.

Lemma printed_no_device out : filter device (map Printed out) = [].
Proof. induction out as [|line out IH]; [reflexivity | exact IH]. Qed.

Lemma plot_modulation_no_device points block :
  filter device (plot_modulation points block) = [].
Proof. reflexivity. Qed.

Lemma connected_device events :
  filter device (Connected :: events) = Connected :: filter device events.
Proof. reflexivity. Qed.

(** The table words written, from entry [k] on. *)
Lemma write_words_spec table count : forall k events ok,
  write_words table k count = (events, ok) ->
  filter device events = events
  /\ if ok then
       (count = 0 \/ k + count <= length (_reg_MSLUT table))%nat
       /\ events = map (fun j => Written (MSLUT j)
                                   (TableWord (nth j (_reg_MSLUT table) 0)))
                       (List.seq k count)
     else
       (length (_reg_MSLUT table) < k + count)%nat
       /\ events = map (fun j => Written (MSLUT j)
                                   (TableWord (nth j (_reg_MSLUT table) 0)))
                       (List.seq k (length (_reg_MSLUT table) - k)).
Proof.
  induction count as [|count IH]; intros k events ok; cbn [write_words].
  - intros H; inversion H; subst. split; [reflexivity|]. split; [lia|reflexivity].
  - destruct (nth_error (_reg_MSLUT table) k) as [w|] eqn:E.
    + assert (Hk : (k < length (_reg_MSLUT table))%nat)
        by (apply nth_error_Some; congruence).
      destruct (write_words table (S k) count) as [rest ok'] eqn:W.
      intros H; inversion H; subst. apply IH in W as [Hdev Hrest].
      split; [cbn [filter device]; now rewrite Hdev|].
      assert (Hw : nth k (_reg_MSLUT table) 0 = w) by (apply nth_error_nth; exact E).
      destruct ok.
      * destruct Hrest as [Hlen ->]. split; [lia|].
        cbn [List.seq map]. now rewrite Hw.
      * destruct Hrest as [Hlen ->]. split; [lia|].
        replace (length (_reg_MSLUT table) - k)%nat
          with (S (length (_reg_MSLUT table) - S k)) by lia.
        cbn [List.seq map]. now rewrite Hw.
    + apply nth_error_None in E. intros H; inversion H; subst.
      split; [reflexivity|]. split; [lia|].
      replace (length (_reg_MSLUT table) - k)%nat with 0%nat by lia. reflexivity.
Qed.

(** The events of an upload: all of them reach the device. *)
Lemma upload_spec table events e :
  upload table = (events, e) ->
  filter device events = events
  /\ ((e = Done
       /\ (8 <= length (_reg_MSLUT table))%nat
       /\ events
          = Connected
              :: map (fun j => Written (MSLUT j)
                                 (TableWord (nth j (_reg_MSLUT table) 0)))
                     (List.seq 0 8)
              ++ [Written MSLUTSEL (ControlWord (_reg_MSLUTSEL table));
                  Written MSLUTSTART (StartValue (_reg_MSLUTSTART table));
                  Closed])
      \/ (e = Uncaught IndexError
          /\ (length (_reg_MSLUT table) < 8)%nat
          /\ events
             = Connected
                 :: map (fun j => Written (MSLUT j)
                                    (TableWord (nth j (_reg_MSLUT table) 0)))
                        (List.seq 0 (length (_reg_MSLUT table))))).
Proof.
  unfold upload. destruct (write_words table 0 8) as [words ok] eqn:W.
  apply write_words_spec in W as [Hdev Hw]. destruct ok.
  - destruct Hw as [Hlen ->]. intros H. injection H as <- <-. split.
    + reflexivity.
    + left. split; [reflexivity|]. split; [lia|reflexivity].
  - destruct Hw as [Hlen ->]. intros H. injection H as <- <-. split.
    + now rewrite connected_device, Hdev.
    + right. split; [reflexivity|]. split; [lia|].
      now rewrite Nat.sub_0_r.
Qed.

(** The ways through lines 120 to 154. *)
Lemma after_encoding_cases points table upload_table events e :
  after_encoding truth equals_None points table upload_table = (events, e) ->
  (e = Exit 1 /\ filter device events = []
   /\ match table with Some t => truth t = false | None => True end)
  \/ (exists t, table = Some t /\ truth t = true /\ upload_table = false
      /\ e = Exit 0 /\ filter device events = [])
  \/ (exists t written,
        table = Some t /\ truth t = true /\ upload_table = true
        /\ upload t = (written, e) /\ filter device events = written).
Proof.
  unfold after_encoding. destruct table as [t|].
  - destruct (truth t) eqn:T; cbn [negb].
    + destruct upload_table; cbn [negb].
      * destruct (upload t) as [written e'] eqn:U. intros H.
        injection H as <- <-.
        right. right. exists t, written. repeat split; try assumption.
        apply upload_spec in U as [Hdev _].
        unfold plot_modulation. cbn [app filter device]. exact Hdev.
      * intros H. injection H as <- <-. right. left. exists t.
        repeat split; assumption.
    + intros H. injection H as <- <-. left. repeat split; assumption.
  - intros H. injection H as <- <-. left. repeat split.
Qed.

(** The ways through the script. *)
Lemma script_cases amplitude offset modulation upload_table trace e :
  script encodeWaveform truth equals_None amplitude offset modulation upload_table
  = Some (trace, e) ->
  (exists x obj1,
      to_list (PyGen (longitualWaveGenerator modulation)) = Some (Raise x, obj1)
      /\ trace = [] /\ e = Uncaught (Builtin x))
  \/ exists points obj1,
       to_list (PyGen (longitualWaveGenerator modulation)) = Some (Ok points, obj1)
       /\ ((exists out x obj2,
              sineWave amplitude offset (PyList points) = Some ((out, Raise x), obj2)
              /\ trace = map Printed out /\ e = Uncaught (Builtin x))
           \/ exists out values obj2,
                sineWave amplitude offset (PyList points)
                = Some ((out, Ok values), obj2)
                /\ ((exists table events,
                       encodeWaveform values = Ok table
                       /\ after_encoding truth equals_None points (Some table)
                            upload_table = (events, e)
                       /\ trace = map Printed out ++ events)
                    \/ (encodeWaveform values = Raise ValueError
                        /\ trace = map Printed out
                                     ++ Printed could_not_be_encoded
                                     :: plot_modulation points true
                        /\ e = Exit 1)
                    \/ (exists x,
                          x <> ValueError /\ encodeWaveform values = Raise x
                          /\ trace = map Printed out
                          /\ e = Uncaught (Builtin x)))).
Proof.
  unfold script.
  destruct (to_list _) as [[[points|x] obj1]|] eqn:T; [| |discriminate].
  2:{ intros H. injection H as <- <-. left. exists x, obj1. auto. }
  destruct (sineWave amplitude offset (PyList points))
    as [[[out [values|x]] obj2]|] eqn:S; [| |discriminate].
  - intros H. right. exists points, obj1. split; [reflexivity|]. right.
    exists out, values, obj2. split; [exact S|].
    destruct (encodeWaveform values) as [table|x] eqn:E.
    + destruct (after_encoding _ _ _ _ _) as [events e'] eqn:A.
      injection H as <- <-. left. exists table, events. auto.
    + destruct x; cbv beta iota delta [after_encoding] in H;
        injection H as <- <-;
        [right; right; exists TypeError
        |right; left
        |right; right; exists RuntimeError
        |right; right; exists OverflowError];
        repeat split; discriminate.
  - intros H. injection H as <- <-. right. exists points, obj1.
    split; [reflexivity|]. left. exists out, x, obj2. split; [exact S|auto].
Qed.

Lemma upload_prints_nothing table events e line :
  upload table = (events, e) -> ~ In (Printed line) events.
Proof.
  intros U. apply upload_spec in U as [Hdev _]. intros Hin.
  rewrite <- Hdev in Hin. apply filter_In in Hin as [_ Hin]. discriminate.
Qed.

Lemma after_encoding_prints_nothing points table upload_table events e line :
  after_encoding truth equals_None points table upload_table = (events, e) ->
  ~ In (Printed line) events.
Proof.
  unfold after_encoding. destruct table as [t|].
  - destruct (truth t); cbn [negb].
    + destruct upload_table; cbn [negb].
      * destruct (upload t) as [written e'] eqn:U. intros H.
        injection H as <- <-. intros Hin.
        unfold plot_modulation in Hin. cbn [app In] in Hin.
        repeat (destruct Hin as [Hin|Hin]; [discriminate|]).
        apply (upload_prints_nothing _ _ _ _ U Hin).
      * intros H. injection H as <- <-. intros Hin.
        unfold plot_modulation in Hin. cbn [app In] in Hin.
        repeat (destruct Hin as [Hin|Hin]; [discriminate|]). exact Hin.
    + intros H. injection H as <- <-. intros Hin.
      unfold plot_modulation in Hin. cbn [app In] in Hin.
      repeat (destruct Hin as [Hin|Hin]; [discriminate|]). exact Hin.
  - intros H. injection H as <- <-. intros Hin.
    unfold plot_modulation in Hin. cbn [app In] in Hin.
    repeat (destruct Hin as [Hin|Hin]; [discriminate|]). exact Hin.
Qed.

(** The lines [sineWave] prints. *)
Lemma sineWave_out amplitude offset obj out res obj' :
  sineWave amplitude offset obj = Some ((out, res), obj') ->
  out = [] \/ out = [warning].
Proof.
  unfold sineWave. destruct (negb (both_int amplitude offset)).
  { unfold raise. intros H. left. congruence. }
  destruct (for_each _ _ _ _ _) as [[r it']|]; [|discriminate].
  intros H.
  assert (Hr : (v <~ lift r ;; check_values v) = (out, res)) by congruence.
  clear H. destruct r as [vs|x].
  - assert (Hc : check_values vs = (out, res)).
    { unfold lift, andthen in Hr. destruct (check_values vs). exact Hr. }
    pose proof (check_values_cases vs) as C. rewrite Hc in C.
    destruct (py_max vs) as [m|x]; [|left; congruence].
    destruct (m >=? 256); [left; congruence|].
    destruct (m >? 247); [right|left]; congruence.
  - unfold lift, andthen in Hr. left. congruence.
Qed.

(** What lines 127 to 154 have done when they upload. *)
Lemma after_encoding_upload points table upload_table events e :
  after_encoding truth equals_None points (Some table) upload_table = (events, e) ->
  filter device events <> [] ->
  upload_table = true
  /\ truth table = true
  /\ upload table = (filter device events, e)
  /\ events = plot_modulation points (equals_None table)
                ++ [PrintRegisters table; PlotQuarterWave table false;
                    PlotWaveform table true]
                ++ filter device events.
Proof.
  unfold after_encoding. destruct (truth table); cbn [negb].
  - destruct upload_table; cbn [negb].
    + destruct (upload table) as [written e'] eqn:U. intros H _.
      apply pair_equal_spec in H as [<- <-].
      assert (Hdev : filter device written = written)
        by apply (proj1 (upload_spec _ _ _ U)).
      assert (Hf : filter device
                     ((plot_modulation points (equals_None table)
                       ++ [PrintRegisters table; PlotQuarterWave table false;
                           PlotWaveform table true]) ++ written)
                   = written).
      { rewrite filter_app, filter_app, plot_modulation_no_device.
        cbn [app filter device]. exact Hdev. }
      rewrite Hf. split; [reflexivity|]. split; [reflexivity|].
      split; [reflexivity|]. symmetry. apply app_assoc.
    + intros H. apply pair_equal_spec in H as [<- <-]. intros Hdev.
      exfalso. apply Hdev.
      rewrite filter_app, plot_modulation_no_device. reflexivity.
  - intros H. apply pair_equal_spec in H as [<- <-]. intros Hdev.
    exfalso. apply Hdev. apply plot_modulation_no_device.
Qed.

(** A run of the script that reaches the device, from its first line on. *)
Lemma script_upload amplitude offset modulation upload_table trace e :
  script encodeWaveform truth equals_None amplitude offset modulation upload_table
  = Some (trace, e) ->
  filter device trace <> [] ->
  upload_table = true
  /\ exists points obj1 out values obj2 table,
       to_list (PyGen (longitualWaveGenerator modulation)) = Some (Ok points, obj1)
       /\ sineWave amplitude offset (PyList points) = Some ((out, Ok values), obj2)
       /\ encodeWaveform values = Ok table
       /\ truth table = true
       /\ upload table = (filter device trace, e)
       /\ trace = map Printed out
                    ++ plot_modulation points (equals_None table)
                    ++ [PrintRegisters table; PlotQuarterWave table false;
                        PlotWaveform table true]
                    ++ filter device trace.
Proof.
  intros H Hdev.
  apply script_cases in H
    as [(x & obj1 & _ & -> & _)
       |(points & obj1 & T &
         [(out & x & obj2 & _ & -> & _)
         |(out & values & obj2 & S &
           [(table & events & E & A & ->)
           |[(_ & -> & _)|(x & _ & _ & -> & _)]])])].
  - contradiction.
  - rewrite printed_no_device in Hdev. contradiction.
  - assert (Hf : filter device (map Printed out ++ events) = filter device events)
      by (rewrite filter_app, printed_no_device; reflexivity).
    rewrite Hf in *.
    apply after_encoding_upload in A as (Hu & Ht & U & Ev); [|assumption].
    split; [assumption|].
    exists points, obj1, out, values, obj2, table. rewrite <- Ev. auto 7.
  - rewrite filter_app, printed_no_device in Hdev. contradiction.
  - rewrite printed_no_device in Hdev. contradiction.
Qed.

End WithTable.

End MainFacts.

Import Main MainFacts.

(** X7.  The script reaches the device only on request: if it connects,
    writes a register or closes the interface, then the upload was switched
    on, and the run was this one: the generator gave its points, [sineWave]
    returned 256 values for them (none above 255), [encodeWaveform] returned
    a table for these values, and that table counted as true.  Before the
    first call to the device the script has printed what [sineWave] printed,
    shown the modulation plot, and printed and plotted that table; nothing
    but calls to the device follows. *)
Theorem script_reaches_the_device_only_on_request (L : Libm)
  (encodeWaveform : list Z -> result RegisterSet)
  (truth equals_None : RegisterSet -> bool)
  (amplitude offset : value) (modulation : num) (upload_table : bool)
  (trace : list event) (e : ending) :
  script encodeWaveform truth equals_None amplitude offset modulation upload_table
  = Some (trace, e) ->
  filter device trace <> [] ->
  upload_table = true
  /\ exists points obj1 out values obj2 table,
       to_list (PyGen (longitualWaveGenerator modulation)) = Some (Ok points, obj1)
       /\ sineWave amplitude offset (PyList points) = Some ((out, Ok values), obj2)
       /\ length values = 256%nat
       /\ Forall (fun v => v <= 255) values
       /\ encodeWaveform values = Ok table
       /\ truth table = true
       /\ trace = map Printed out
                    ++ plot_modulation points (equals_None table)
                    ++ [PrintRegisters table; PlotQuarterWave table false;
                        PlotWaveform table true]
                    ++ filter device trace.
Proof.
  intros H Hdev.
  apply script_upload in H
    as (Hu & points & obj1 & out & values & obj2 & table & T & S & E & Ht & _ & Ev);
    [|assumption].
  split; [assumption|].
  exists points, obj1, out, values, obj2, table.
  assert (Hv : length values = 256%nat /\ Forall (fun v => v <= 255) values).
  { pose proof S as S'.
    apply sineWave_returned in S' as (_ & it' & _ & _ & Hc).
    apply check_values_ok. rewrite Hc. reflexivity. }
  destruct Hv as [Hlen Hmax]. auto 8.
Qed.

Lemma script_reaches_the_device_only_on_request_witness :
  exists trace e,
    @script small_angle encoder_two table_is_true table_is_None
      (PyInt 0) (PyInt 7) (NInt 0) true
    = Some (trace, e)
    /\ true = true
    /\ exists points obj1 out values obj2 table,
         @to_list small_angle (PyGen (longitualWaveGenerator (NInt 0)))
         = Some (Ok points, obj1)
         /\ @sineWave small_angle (PyInt 0) (PyInt 7) (PyList points)
            = Some ((out, Ok values), obj2)
         /\ length values = 256%nat
         /\ Forall (fun v => v <= 255) values
         /\ encoder_two values = Ok table
         /\ table_is_true table = true
         /\ trace = map Printed out
                      ++ plot_modulation points (table_is_None table)
                      ++ [PrintRegisters table; PlotQuarterWave table false;
                          PlotWaveform table true]
                      ++ filter device trace.
Proof.
  eexists. eexists. split; [vm_compute; reflexivity|].
  eapply (script_reaches_the_device_only_on_request small_angle
            encoder_two table_is_true table_is_None
            (PyInt 0) (PyInt 7) (NInt 0) true).
  - vm_compute. reflexivity.
  - vm_compute. discriminate.
Defined.

(** X8.  The line "Specified waveform could not be encoded" is printed only
    when [encodeWaveform] has raised [ValueError] on the sampled values; the
    script then shows the modulation plot, ends with [exit(1)] and has not
    reached the device.  A [ValueError] of [sineWave] itself is outside the
    [try] and never gives this line. *)
Theorem could_not_be_encoded_is_the_encoder (L : Libm)
  (encodeWaveform : list Z -> result RegisterSet)
  (truth equals_None : RegisterSet -> bool)
  (amplitude offset : value) (modulation : num) (upload_table : bool)
  (trace : list event) (e : ending) :
  script encodeWaveform truth equals_None amplitude offset modulation upload_table
  = Some (trace, e) ->
  In (Printed could_not_be_encoded) trace ->
  e = Exit 1
  /\ filter device trace = []
  /\ exists points out values obj,
       sineWave amplitude offset (PyList points) = Some ((out, Ok values), obj)
       /\ encodeWaveform values = Raise ValueError
       /\ trace = map Printed out ++ Printed could_not_be_encoded
                     :: plot_modulation points true.
Proof.
  intros H Hin.
  assert (Hout : forall out res obj points,
             sineWave amplitude offset (PyList points) = Some ((out, res), obj) ->
             ~ In (Printed could_not_be_encoded) (map Printed out)).
  { intros out res obj points S Hp. apply sineWave_out in S as [->| ->].
    - destruct Hp.
    - destruct Hp as [Hp|[]]. inversion Hp. }
  apply script_cases in H
    as [(x & obj1 & _ & -> & _)
       |(points & obj1 & _ &
         [(out & x & obj2 & S & -> & _)
         |(out & values & obj2 & S &
           [(table & events & E & A & ->)
           |[(E & -> & ->)|(x & _ & _ & -> & _)]])])].
  - destruct Hin.
  - destruct (Hout _ _ _ _ S Hin).
  - apply in_app_iff in Hin as [Hin|Hin]; [destruct (Hout _ _ _ _ S Hin)|].
    destruct (after_encoding_prints_nothing _ _ _ _ _ _ _ _ A Hin).
  - split; [reflexivity|]. split.
    + rewrite filter_app, printed_no_device. reflexivity.
    + exists points, out, values, obj2. auto.
  - destruct (Hout _ _ _ _ S Hin).
Qed.

Lemma could_not_be_encoded_is_the_encoder_witness :
  exists trace,
    @script small_angle encoder_two table_is_true table_is_None
      (PyInt 100) (PyInt MICROSTEP_OFFSET) (NInt 0) UPLOAD_TABLE
    = Some (trace, Exit 1)
    /\ filter device trace = [].
Proof.
  eexists. split; [vm_compute; reflexivity|].
  match goal with
  | |- filter device ?trace = [] =>
      refine (proj1 (proj2 (could_not_be_encoded_is_the_encoder small_angle
                              encoder_two table_is_true table_is_None
                              (PyInt 100) (PyInt MICROSTEP_OFFSET) (NInt 0)
                              UPLOAD_TABLE trace (Exit 1) _ _)))
  end.
  - vm_compute. reflexivity.
  - left. reflexivity.
Defined.

(** X9.  What an upload does, and with which table: the table is the one
    [encodeWaveform] returned for the values [sineWave] returned for the
    points of the generator.  The script connects, writes [MSLUT0] ..
    [MSLUT7] from [table._reg_MSLUT[0]] .. [[7]] in this order, then
    [MSLUTSEL] and [MSLUTSTART], closes the interface and is done.  If the
    table has fewer than eight words it writes those it has and ends in an
    [IndexError] without closing the interface. *)
Theorem upload_writes_the_registers_in_order (L : Libm)
  (encodeWaveform : list Z -> result RegisterSet)
  (truth equals_None : RegisterSet -> bool)
  (amplitude offset : value) (modulation : num) (upload_table : bool)
  (trace : list event) (e : ending) :
  script encodeWaveform truth equals_None amplitude offset modulation upload_table
  = Some (trace, e) ->
  filter device trace <> [] ->
  exists points obj1 out values obj2 table,
    to_list (PyGen (longitualWaveGenerator modulation)) = Some (Ok points, obj1)
    /\ sineWave amplitude offset (PyList points) = Some ((out, Ok values), obj2)
    /\ encodeWaveform values = Ok table
    /\ let word j := Written (MSLUT j) (TableWord (nth j (_reg_MSLUT table) 0)) in
       (e = Done
        /\ (8 <= length (_reg_MSLUT table))%nat
        /\ filter device trace
           = Connected :: map word (List.seq 0 8)
               ++ [Written MSLUTSEL (ControlWord (_reg_MSLUTSEL table));
                   Written MSLUTSTART (StartValue (_reg_MSLUTSTART table));
                   Closed])
       \/ (e = Uncaught IndexError
           /\ (length (_reg_MSLUT table) < 8)%nat
           /\ filter device trace
              = Connected :: map word (List.seq 0 (length (_reg_MSLUT table)))).
Proof.
  intros H Hdev.
  apply script_upload in H
    as (Hu & points & obj1 & out & values & obj2 & table & T & S & E & Ht & U & _);
    [|assumption].
  exists points, obj1, out, values, obj2, table.
  split; [assumption|]. split; [assumption|]. split; [assumption|]. cbv zeta.
  apply upload_spec in U as [_ [(-> & Hlen & Hw)|(-> & Hlen & Hw)]];
    [left|right]; auto.
Qed.

Lemma upload_writes_the_registers_in_order_witness :
  exists trace e,
    @script small_angle encoder_two table_is_true table_is_None
      (PyInt 0) (PyInt 7) (NInt 0) true
    = Some (trace, e)
    /\ exists points obj1 out values obj2 table,
         @to_list small_angle (PyGen (longitualWaveGenerator (NInt 0)))
         = Some (Ok points, obj1)
         /\ @sineWave small_angle (PyInt 0) (PyInt 7) (PyList points)
            = Some ((out, Ok values), obj2)
         /\ encoder_two values = Ok table
         /\ let word j := Written (MSLUT j) (TableWord (nth j (_reg_MSLUT table) 0)) in
            (e = Done
             /\ (8 <= length (_reg_MSLUT table))%nat
             /\ filter device trace
                = Connected :: map word (List.seq 0 8)
                    ++ [Written MSLUTSEL (ControlWord (_reg_MSLUTSEL table));
                        Written MSLUTSTART (StartValue (_reg_MSLUTSTART table));
                        Closed])
            \/ (e = Uncaught IndexError
                /\ (length (_reg_MSLUT table) < 8)%nat
                /\ filter device trace
                   = Connected :: map word (List.seq 0 (length (_reg_MSLUT table)))).
Proof.
  eexists. eexists. split; [vm_compute; reflexivity|].
  eapply (upload_writes_the_registers_in_order small_angle
            encoder_two table_is_true table_is_None
            (PyInt 0) (PyInt 7) (NInt 0) true).
  - vm_compute. reflexivity.
  - vm_compute. discriminate.
Defined.

(** X10.  Every way the script ends in an uncaught exception.  A built-in
    exception escapes from the generator, with nothing done yet; from
    [sineWave] on the points the generator gave; or from [encodeWaveform]
    on the values [sineWave] returned, when it is not the [ValueError] the
    script catches.  In these cases nothing has been plotted: the script has
    printed at most the warning of [sineWave].  The only other one is the
    [IndexError] of a table with fewer than eight words, during the upload:
    then the script has plotted, connected and written the words the table
    has.  A [ValueError] of [encodeWaveform] never escapes. *)
Theorem uncaught_exceptions_of_the_script (L : Libm)
  (encodeWaveform : list Z -> result RegisterSet)
  (truth equals_None : RegisterSet -> bool)
  (amplitude offset : value) (modulation : num) (upload_table : bool)
  (trace : list event) (f : failure) :
  script encodeWaveform truth equals_None amplitude offset modulation upload_table
  = Some (trace, Uncaught f) ->
  (exists x obj1,
      to_list (PyGen (longitualWaveGenerator modulation)) = Some (Raise x, obj1)
      /\ f = Builtin x /\ trace = [])
  \/ exists points obj1,
       to_list (PyGen (longitualWaveGenerator modulation)) = Some (Ok points, obj1)
       /\ ((exists out x obj2,
              sineWave amplitude offset (PyList points) = Some ((out, Raise x), obj2)
              /\ f = Builtin x
              /\ trace = map Printed out
              /\ (out = [] \/ out = [warning]))
           \/ exists out values obj2,
                sineWave amplitude offset (PyList points)
                = Some ((out, Ok values), obj2)
                /\ (out = [] \/ out = [warning])
                /\ ((exists x,
                       encodeWaveform values = Raise x
                       /\ x <> ValueError
                       /\ f = Builtin x
                       /\ trace = map Printed out)
                    \/ exists table,
                         encodeWaveform values = Ok table
                         /\ truth table = true
                         /\ upload_table = true
                         /\ f = IndexError
                         /\ (length (_reg_MSLUT table) < 8)%nat
                         /\ trace
                            = map Printed out
                                ++ plot_modulation points (equals_None table)
                                ++ [PrintRegisters table; PlotQuarterWave table false;
                                    PlotWaveform table true]
                                ++ Connected
                                :: map (fun j => Written (MSLUT j)
                                                   (TableWord (nth j (_reg_MSLUT table) 0)))
                                       (List.seq 0 (length (_reg_MSLUT table))))).
Proof.
  intros H. pose proof H as H0.
  apply script_cases in H
    as [(y & obj1 & T & -> & Hy)
       |(points & obj1 & T &
         [(out & y & obj2 & S & -> & Hy)
         |(out & values & obj2 & S &
           [(table & events & E & A & ->)
           |[(_ & _ & Hy)|(y & Hne & E & -> & Hy)]])])].
  - left. exists y, obj1. split; [assumption|]. split; [congruence|reflexivity].
  - right. exists points, obj1. split; [assumption|]. left.
    exists out, y, obj2. split; [assumption|]. split; [congruence|].
    split; [reflexivity|]. apply (sineWave_out _ _ _ _ _ _ S).
  - right. exists points, obj1. split; [assumption|]. right.
    exists out, values, obj2. split; [assumption|].
    split; [apply (sineWave_out _ _ _ _ _ _ S)|]. right.
    assert (Hdev : filter device (map Printed out ++ events) <> []).
    { rewrite filter_app, printed_no_device. cbn [app].
      apply after_encoding_cases in A
        as [(Hy & _)|[(t & _ & _ & _ & Hy & _)|(t & written & _ & _ & _ & U & F)]];
        try discriminate.
      rewrite F. apply upload_spec in U as [_ [(Hy & _)|(_ & _ & ->)]];
        [discriminate|]. discriminate. }
    apply (script_upload _ _ _ _ _ _ _ _ _ H0) in Hdev
      as (Hu & points' & obj1' & out' & values' & obj2' & table' & T' & S' & E' & Ht & U & Ev).
    assert (points' = points) by congruence. subst points'.
    assert (Ho : out' = out /\ values' = values) by (split; congruence).
    destruct Ho as [-> ->].
    assert (table' = table) by congruence. subst table'.
    exists table. split; [assumption|]. split; [assumption|]. split; [assumption|].
    apply upload_spec in U as [_ [(Hy & _)|(Hy & Hlen & Hw)]]; [discriminate|].
    split; [congruence|]. split; [assumption|].
    rewrite Hw in Ev. exact Ev.
  - discriminate.
  - right. exists points, obj1. split; [assumption|]. right.
    exists out, values, obj2. split; [assumption|].
    split; [apply (sineWave_out _ _ _ _ _ _ S)|]. left.
    exists y. split; [assumption|]. split; [assumption|].
    split; [congruence|reflexivity].
Qed.

Lemma uncaught_exceptions_of_the_script_witness :
  exists trace,
    @script small_angle encoder_two table_is_true table_is_None
      (PyInt 1000) (PyInt MICROSTEP_OFFSET) (NInt 0) UPLOAD_TABLE
    = Some (trace, Uncaught (Builtin ValueError))
    /\ exists points obj1 out obj2,
         @to_list small_angle (PyGen (longitualWaveGenerator (NInt 0)))
         = Some (Ok points, obj1)
         /\ @sineWave small_angle (PyInt 1000) (PyInt MICROSTEP_OFFSET) (PyList points)
            = Some ((out, Raise ValueError), obj2)
         /\ trace = map Printed out
         /\ (out = [] \/ out = [warning]).
Proof.
  eexists. split; [vm_compute; reflexivity|].
  destruct (uncaught_exceptions_of_the_script small_angle
              encoder_two table_is_true table_is_None
              (PyInt 1000) (PyInt MICROSTEP_OFFSET) (NInt 0) UPLOAD_TABLE
              [] (Builtin ValueError))
    as [(x & obj1 & T & _)
       |(points & obj1 & T &
         [(out & x & obj2 & S & Hx & Ht & Hout)
         |(out & values & obj2 & S & _)])].
  - vm_compute. reflexivity.
  - exfalso. revert T. vm_compute. discriminate.
  - exists points, obj1, out, obj2.
    assert (x = ValueError) by congruence. subst x. auto.
  - exfalso. revert S.
    assert (Hp : points = map float_point (range 0 256)).
    { revert T. vm_compute. congruence. }
    rewrite Hp. vm_compute. discriminate.
Defined.
